(** * farm-sequential.js: the sequential wallet farming script

    A shallow embedding of [farm-sequential.js].  The script talks to a
    blockchain node, the file system and the console; every such call is an
    entry of a trace, and the answers come from a [World] whose oracles see
    the whole history of calls made so far, so that any pattern of failures
    can be expressed.  Asynchronous functions become computations in a
    trace-passing monad with exceptions ([await] is sequencing, a rejected
    promise is a thrown error).

    Not part of the trace: the informational [console.log] lines.  What the
    operator is told about failures ([console.error], [console.warn]) is.

    Taken as given: the options as yargs has parsed them, with [--num] and
    [--rate] integers (the exits of yargs itself on [--help] and
    [--version] are not modelled).  Every call into ethers.js, the node or
    the file system whose result the script uses can throw, the construction
    of the provider and of the funder wallet as the module loads included:
    [farm_sequential] is the whole process, [program] the process once
    these two are built. *)

From Stdlib Require Import List String ZArith Lia Bool.
From Stdlib Require Import Decimal DecimalString DecimalNat.
Import ListNotations.
Open Scope string_scope.

(** ** JavaScript values *)

(** A thrown value: an [Error] object with its [name] and [message]. *)
Record JsError := mkJsError { err_name : string; err_message : string }.

(** [new Error(msg)] *)
Definition Error (msg : string) : JsError := mkJsError "Error" msg.

Definition is_empty (s : string) : bool :=
  match s with EmptyString => true | String _ _ => false end.

(** [String(err)], that is [Error.prototype.toString]. *)
Definition String_of_error (e : JsError) : string :=
  if is_empty (err_name e) then err_message e
  else if is_empty (err_message e) then err_name e
  else err_name e ++ ": " ++ err_message e.

(** An argument printed by the console: a string or an error object. *)
Inductive JsLogArg :=
| LogStr (s : string)
| LogErr (e : JsError).

(** [err.message || err] *)
Definition message_or_self (e : JsError) : JsLogArg :=
  if is_empty (err_message e) then LogErr e else LogStr (err_message e).

(** The decimal rendering of a loop index in a template literal. *)
Definition string_of_index (i : nat) : string :=
  NilEmpty.string_of_uint (Nat.to_uint i).

(** The outcome of evaluating a fallible expression. *)
Inductive Completion (A : Type) :=
| Normal (a : A)
| Throw (e : JsError).
Arguments Normal {A} a.
Arguments Throw {A} e.

(** ** Data of the script *)

Record Wallet := mkWallet { address : string; privateKey : string }.

(** An entry of [savedWallets]. *)
Record SavedWallet := mkSavedWallet {
  sw_index : nat;
  sw_address : string;
  sw_privateKey : string
}.

(** An entry of [results]; a key the object literal does not have is [None]. *)
Record IterationResult := mkResult {
  r_index : nat;
  r_address : option string;
  r_txHash : option string;
  r_status : string;
  r_step : option string;
  r_error : option string
}.

(** The object written to [farm-results.json]. *)
Record Summary := mkSummary {
  s_rpc : string;
  s_contract : string;
  s_date : string;
  s_rateSeconds : Z;
  s_fundAmount : string;
  s_results : list IterationResult
}.

(** What [JSON.stringify] is applied to before a file is written. *)
Inductive FileContent :=
| WalletsJson (l : list SavedWallet)
| ResultsJson (s : Summary).

(** The argument of [sendTransaction]. *)
Record TxRequest := mkTxRequest {
  tx_to : string;
  tx_value : option Z;
  tx_data : option string;
  tx_gasLimit : option Z
}.

(** The argument of [provider.estimateGas]. *)
Record CallRequest := mkCallRequest {
  call_to : string;
  call_from : string;
  call_data : string
}.

(** What [sendStoreMessageTx] resolves to. *)
Record SendResult := mkSendResult { txHash : string; receipt : string }.

(** [array.push(x)] *)
Definition push {A} (l : list A) (x : A) : list A := (l ++ [x])%list.

(** ** Effects *)

Inductive Event :=
| EvCreateRandom
| EvGetBalance (addr : string)
| EvEstimateGas (req : CallRequest)
| EvSendTransaction (from : string) (req : TxRequest)
| EvWait (hash : string)
| EvSleep (ms : Z)
| EvWriteFile (path : string) (content : FileContent)
| EvConsoleError (args : list JsLogArg)
| EvConsoleWarn (args : list JsLogArg).

(** The history of calls, the most recent one first. *)
Definition Trace := list Event.

(** The collaborators of the script: ethers.js, the node behind the provider
    and the file system.  The oracles that depend on the state of the outside
    world receive the history of the calls made before them. *)
Record World := mkWorld {
  (** [ethers.Wallet.createRandom()] connected to the provider *)
  w_createRandom : Trace -> Completion Wallet;
  (** [ethers.HDNode.fromMnemonic(mnemonic).derivePath(path)] wrapped in a
      wallet: a function of the seed and the path only *)
  w_deriveHd : string -> string -> Completion Wallet;
  (** [ethers.parseEther] *)
  w_parseEther : string -> Completion Z;
  (** [iface.encodeFunctionData("storeMessage", [message])] *)
  w_encodeFunctionData : string -> Completion string;
  (** [ethers.BigInt], applied to the fallback gas limit *)
  w_BigInt : Z -> Completion Z;
  (** [provider.getBalance] *)
  w_getBalance : Trace -> string -> Completion Z;
  (** [provider.estimateGas] *)
  w_estimateGas : Trace -> CallRequest -> Completion Z;
  (** [signer.sendTransaction], resolving to the transaction hash *)
  w_sendTransaction : Trace -> string -> TxRequest -> Completion string;
  (** [tx.wait()], resolving to the receipt *)
  w_wait : Trace -> string -> Completion string;
  (** [fs.writeFileSync] *)
  w_writeFileSync : Trace -> string -> FileContent -> Completion unit;
  (** [new Date().toISOString()] *)
  w_now : Trace -> string;
  (** the address of the wallet built from a private key *)
  w_addressOf : string -> string;
  (** [new ethers.JsonRpcProvider(rpc)] then [new ethers.Wallet(key,
      provider)], as the module loads: it throws on a key that is present
      and malformed *)
  w_newFunder : string -> string -> Completion unit
}.

(** ** The monad of asynchronous code *)

Definition M (A : Type) : Type := Trace -> Trace * Completion A.

Definition ret {A} (a : A) : M A := fun t => (t, Normal a).

Definition throw {A} (e : JsError) : M A := fun t => (t, Throw e).

Definition bind {A B} (m : M A) (k : A -> M B) : M B :=
  fun t =>
    match m t with
    | (t', Normal a) => k a t'
    | (t', Throw e) => (t', Throw e)
    end.

(** [try { m } catch (e) { ... }]: the completion of [m] is handed to the
    code that follows, which decides on it. *)
Definition try {A} (m : M A) : M (Completion A) :=
  fun t => let (t', c) := m t in (t', Normal c).

(** A call to the outside: it is logged, and the oracle answers from the
    history before the call. *)
Definition call {A} (ev : Event) (answer : Trace -> Completion A) : M A :=
  fun t => (ev :: t, answer t).

(** A pure library function that may throw. *)
Definition lift {A} (c : Completion A) : M A := fun t => (t, c).

Declare Scope js_scope.
Delimit Scope js_scope with js.
Notation "x <- m ;; k" := (bind m (fun x => k))
  (at level 61, m at next level, right associativity) : js_scope.
Notation "m ;;; k" := (bind m (fun _ => k))
  (at level 61, right associativity) : js_scope.
Open Scope js_scope.

Definition console_error (args : list JsLogArg) : M unit :=
  call (EvConsoleError args) (fun _ => Normal tt).

Definition console_warn (args : list JsLogArg) : M unit :=
  call (EvConsoleWarn args) (fun _ => Normal tt).

(** [sleep(ms)]: a timer, which always fires. *)
Definition sleep (ms : Z) : M unit :=
  call (EvSleep ms) (fun _ => Normal tt).

(** Modelled from the spec: the [pRetry] function of the p-retry package,
    which the script imports and which is not part of the sources.  The
    specification of the Retry Policy: run the operation; on failure invoke
    the observation callback with the failure, on every failed attempt,
    before retrying; retry up to [retries] additional times; after exhausting
    the retries propagate the last failure unchanged.  Retries are
    immediate. *)
Fixpoint pRetry {A} (input : M A) (retries : nat)
    (onFailedAttempt : JsError -> M unit) : M A :=
  c <- try input ;;
  match c with
  | Normal a => ret a
  | Throw err =>
      onFailedAttempt err ;;;
      match retries with
      | O => throw err
      | S retriesLeft => pRetry input retriesLeft onFailedAttempt
      end
  end.

(** ** Configuration *)

(** [process.env] *)
Record Env := mkEnv {
  env_RPC_URL : option string;
  env_CONTRACT_ADDRESS : option string;
  env_FUNDER_PRIVATE_KEY : option string;
  env_MNEMONIC : option string
}.

(** The options given on the command line; [None] when an option is absent. *)
Record Cli := mkCli {
  cli_num : option Z;
  cli_rate : option Z;
  cli_amount : option string;
  cli_useHd : option bool;
  cli_saveWallets : option bool;
  cli_rpc : option string;
  cli_contract : option string;
  cli_message : option string
}.

(** [argv], the options after yargs has applied the defaults. *)
Record Argv := mkArgv {
  num : Z;
  rate : Z;
  amount : string;
  useHd : bool;
  saveWallets : bool;
  rpc : option string;
  contract : option string;
  message : string
}.

Definition default {A} (o : option A) (d : A) : A :=
  match o with Some a => a | None => d end.

Definition or_else {A} (o d : option A) : option A :=
  match o with Some a => Some a | None => d end.

Definition argv (cli : Cli) (env : Env) : Argv :=
  {| num := default (cli_num cli) 20%Z;
     rate := default (cli_rate cli) 2%Z;
     amount := default (cli_amount cli) "0.000002";
     useHd := default (cli_useHd cli) false;
     saveWallets := default (cli_saveWallets cli) true;
     rpc := or_else (cli_rpc cli) (env_RPC_URL env);
     contract := or_else (cli_contract cli) (env_CONTRACT_ADDRESS env);
     message := default (cli_message cli) "Hello from farm!" |}.

(** [!x] for a string that may be undefined. *)
Definition missing (o : option string) : bool :=
  match o with
  | None => true
  | Some s => is_empty s
  end.

(** The module-level constants. *)
Record Config := mkConfig {
  RPC_URL : string;
  CONTRACT_ADDRESS : string;
  FUND_AMOUNT : string;
  NUM : Z;
  RATE_SECONDS : Z;
  USE_HD : bool;
  SAVE_WALLETS : bool;
  MESSAGE_BASE : string;
  FUNDER_PRIVATE_KEY : string;
  MNEMONIC : option string
}.

Definition config (a : Argv) (env : Env) : Config :=
  {| RPC_URL := default (rpc a) "";
     CONTRACT_ADDRESS := default (contract a) "";
     FUND_AMOUNT := amount a;
     NUM := num a;
     RATE_SECONDS := Z.max 1 (rate a);
     USE_HD := useHd a;
     SAVE_WALLETS := saveWallets a;
     MESSAGE_BASE := message a;
     FUNDER_PRIVATE_KEY := default (env_FUNDER_PRIVATE_KEY env) "";
     MNEMONIC := if missing (env_MNEMONIC env) then None else env_MNEMONIC env |}.

Definition HD_PATH_BASE : string := "m/44'/60'/0'/0/".

(** The gas limit used when the estimate fails. *)
Definition FALLBACK_GAS_LIMIT : Z := 300000%Z.

(** ** The script *)

Section Script.

Variable w : World.
Variable cfg : Config.

(** [FUNDER.address] *)
Definition FUNDER_address : string := w_addressOf w (FUNDER_PRIVATE_KEY cfg).

Definition writeFileSync (path : string) (content : FileContent) : M unit :=
  call (EvWriteFile path content) (fun t => w_writeFileSync w t path content).

Definition createWallet (index : nat) : M Wallet :=
  if USE_HD cfg then
    match MNEMONIC cfg with
    | None => throw (Error "MNEMONIC required when --useHd is set.")
    | Some mnemonic =>
        lift (w_deriveHd w mnemonic (HD_PATH_BASE ++ string_of_index index))
    end
  else
    call EvCreateRandom (w_createRandom w).

Definition fundWallet (addr : string) : M string :=
  value <- lift (w_parseEther w (FUND_AMOUNT cfg)) ;;
  let req := {| tx_to := addr; tx_value := Some value;
                tx_data := None; tx_gasLimit := None |} in
  tx <- call (EvSendTransaction FUNDER_address req)
             (fun t => w_sendTransaction w t FUNDER_address req) ;;
  call (EvWait tx) (fun t => w_wait w t tx).

(** The function retried by [sendStoreMessageTx]. *)
Definition storeAttempt (wallet : Wallet) (msg : string) : M SendResult :=
  data <- lift (w_encodeFunctionData w msg) ;;
  let creq := {| call_to := CONTRACT_ADDRESS cfg;
                 call_from := address wallet;
                 call_data := data |} in
  (* estimate gas; fallback to 300k if estimate fails *)
  estimate <- try (call (EvEstimateGas creq)
                        (fun t => w_estimateGas w t creq)) ;;
  gasLimit <-
    match estimate with
    | Normal g => ret g
    | Throw _ => lift (w_BigInt w FALLBACK_GAS_LIMIT)
    end ;;
  let req := {| tx_to := CONTRACT_ADDRESS cfg; tx_value := None;
                tx_data := Some data; tx_gasLimit := Some gasLimit |} in
  tx <- call (EvSendTransaction (address wallet) req)
             (fun t => w_sendTransaction w t (address wallet) req) ;;
  rcpt <- call (EvWait tx) (fun t => w_wait w t tx) ;;
  ret {| txHash := tx; receipt := rcpt |}.

Definition storeOnFailedAttempt (err : JsError) : M unit :=
  console_warn [LogStr "sendStoreMessageTx attempt failed:";
                message_or_self err].

Definition sendStoreMessageTx (wallet : Wallet) (msg : string)
  : M SendResult :=
  call (EvGetBalance (address wallet))
       (fun t => w_getBalance w t (address wallet)) ;;;
  pRetry (storeAttempt wallet msg) 2 storeOnFailedAttempt.

Definition fundOnFailedAttempt (err : JsError) : M unit :=
  console_warn [LogStr "fundWallet attempt failed:"; message_or_self err].

(** The local arrays of [main]: [results] and [savedWallets]. *)
Definition Arrays : Type := list IterationResult * list SavedWallet.

(** The body of the [for] loop of [main] at index [i]; a [continue] is the
    return of the arrays as they are then. *)
Definition iteration (i : nat) (arrays : Arrays) : M Arrays :=
  let (results, savedWallets) := arrays in
  (* 1. create wallet *)
  created <- try (createWallet i) ;;
  match created with
  | Throw err =>
      console_error [LogStr "Failed to create wallet:"; message_or_self err] ;;;
      ret (push results {| r_index := i; r_address := None;
                           r_txHash := None; r_status := "fail";
                           r_step := Some "create";
                           r_error := Some (String_of_error err) |},
           savedWallets)
  | Normal wallet =>
      (* optionally save private key *)
      savedWallets <-
        (if SAVE_WALLETS cfg then
           let saved := push savedWallets
             {| sw_index := i; sw_address := address wallet;
                sw_privateKey := privateKey wallet |} in
           writeFileSync "wallets.json" (WalletsJson saved) ;;;
           ret saved
         else ret savedWallets) ;;
      (* 2. fund wallet (with retry) *)
      funded <- try (pRetry (fundWallet (address wallet)) 2
                            fundOnFailedAttempt) ;;
      match funded with
      | Throw err =>
          console_error
            [LogStr ("Funding failed for " ++ address wallet ++ ":");
             message_or_self err] ;;;
          ret (push results {| r_index := i;
                               r_address := Some (address wallet);
                               r_txHash := None; r_status := "fail";
                               r_step := Some "fund";
                               r_error := Some (String_of_error err) |},
               savedWallets)
      | Normal fundRes =>
          (* small short pause to let chain settle *)
          sleep 1000 ;;;
          (* 3. send storeMessage tx *)
          let msg := MESSAGE_BASE cfg ++ " (#" ++ string_of_index i ++ ")" in
          sent <- try (sendStoreMessageTx wallet msg) ;;
          results <-
            match sent with
            | Normal sendRes =>
                ret (push results {| r_index := i;
                                     r_address := Some (address wallet);
                                     r_txHash := Some (txHash sendRes);
                                     r_status := "ok";
                                     r_step := None;
                                     r_error := None |})
            | Throw err =>
                console_error
                  [LogStr ("storeMessage failed for " ++ address wallet ++ ":");
                   message_or_self err] ;;;
                ret (push results {| r_index := i;
                                     r_address := Some (address wallet);
                                     r_txHash := None; r_status := "fail";
                                     r_step := Some "store";
                                     r_error := Some (String_of_error err) |})
            end ;;
          (* 4. wait RATE_SECONDS before next iteration *)
          sleep (RATE_SECONDS cfg * 1000) ;;;
          ret (results, savedWallets)
      end
  end.

(** [for (let i = ...; i < NUM; i++)] with [n] iterations left to run. *)
Fixpoint loop (n : nat) (i : nat) (arrays : Arrays) : M Arrays :=
  match n with
  | O => ret arrays
  | S n' => arrays' <- iteration i arrays ;; loop n' (S i) arrays'
  end.

Definition summary (date : string) (results : list IterationResult)
  : Summary :=
  {| s_rpc := RPC_URL cfg;
     s_contract := CONTRACT_ADDRESS cfg;
     s_date := date;
     s_rateSeconds := RATE_SECONDS cfg;
     s_fundAmount := FUND_AMOUNT cfg;
     s_results := results |}.

Definition main : M unit :=
  arrays <- loop (Z.to_nat (NUM cfg)) 0 ([], []) ;;
  (* save final results *)
  date <- (fun t => (t, Normal (w_now w t))) ;;
  writeFileSync "farm-results.json" (ResultsJson (summary date (fst arrays))).

End Script.

(** ** The process *)

(** How the process ends: its exit status and everything it did. *)
Record Outcome := mkOutcome { exit_status : Z; effects : Trace }.

(** [process.exit(1)] after one line on the error stream. *)
Definition die (line : string) : Outcome :=
  {| exit_status := 1; effects := [EvConsoleError [LogStr line]] |}.

(** The script with the provider and the funder wallet taken as built: the
    three checks of the configuration, then [main()] with its [catch]. *)
Definition program (w : World) (cli : Cli) (env : Env) : Outcome :=
  let a := argv cli env in
  if missing (rpc a) then
    die "RPC URL required. Set RPC_URL in .env or pass --rpc"
  else if missing (contract a) then
    die "Contract address required. Set CONTRACT_ADDRESS in .env or pass --contract"
  else if missing (env_FUNDER_PRIVATE_KEY env) then
    die "Funder private key required in env as FUNDER_PRIVATE_KEY"
  else
    match main w (config a env) [] with
    | (t, Normal _) => {| exit_status := 0; effects := t |}
    | (t, Throw err) =>
        {| exit_status := 1;
           effects := EvConsoleError [LogStr "Fatal error:"; LogErr err] :: t |}
    end.

(** An exception that nobody catches while the module loads: the process
    ends with status 1 and the script has called nothing. *)
Definition uncaught : Outcome := {| exit_status := 1; effects := [] |}.

(** The script from its first line to the end of the process: the three
    checks of the configuration, the construction of the provider and of the
    funder wallet, then [main()] with its [catch]. *)
Definition farm_sequential (w : World) (cli : Cli) (env : Env) : Outcome :=
  let a := argv cli env in
  if missing (rpc a) then
    die "RPC URL required. Set RPC_URL in .env or pass --rpc"
  else if missing (contract a) then
    die "Contract address required. Set CONTRACT_ADDRESS in .env or pass --contract"
  else if missing (env_FUNDER_PRIVATE_KEY env) then
    die "Funder private key required in env as FUNDER_PRIVATE_KEY"
  else
    let cfg := config a env in
    match w_newFunder w (RPC_URL cfg) (FUNDER_PRIVATE_KEY cfg) with
    | Throw _ => uncaught
    | Normal _ =>
        match main w cfg [] with
        | (t, Normal _) => {| exit_status := 0; effects := t |}
        | (t, Throw err) =>
            {| exit_status := 1;
               effects :=
                 EvConsoleError [LogStr "Fatal error:"; LogErr err] :: t |}
        end
    end.

(** ** Reading a run *)

(** The three required settings, in the order the script checks them. *)
Definition config_missing (cli : Cli) (env : Env) : bool :=
  missing (rpc (argv cli env))
  || missing (contract (argv cli env))
  || missing (env_FUNDER_PRIVATE_KEY env).

(** The file system never refuses a write. *)
Definition writes_succeed (w : World) : Prop :=
  forall t path content, w_writeFileSync w t path content = Normal tt.

(** The summaries handed to [fs.writeFileSync], the most recent first. *)
Fixpoint summaries (t : Trace) : list Summary :=
  match t with
  | [] => []
  | EvWriteFile _ (ResultsJson s) :: t' => s :: summaries t'
  | _ :: t' => summaries t'
  end.

(** The events an iteration of the loop can produce. *)
Definition iteration_event (cfg : Config) (ev : Event) : bool :=
  match ev with
  | EvSleep ms => (ms =? 1000)%Z || (ms =? RATE_SECONDS cfg * 1000)%Z
  | EvWriteFile path (WalletsJson _) => String.eqb path "wallets.json"
  | EvWriteFile _ (ResultsJson _) => false
  | _ => true
  end.

Definition is_sleep (ev : Event) : bool :=
  match ev with EvSleep _ => true | _ => false end.

(** A transaction handed to the network, funding or payload. *)
Definition is_submission (ev : Event) : bool :=
  match ev with EvSendTransaction _ _ => true | _ => false end.

(** A call of the observation hook given to [pRetry], for either step. *)
Definition is_hook_call (ev : Event) : bool :=
  match ev with EvConsoleWarn _ => true | _ => false end.

Definition count (p : Event -> bool) (t : Trace) : nat :=
  List.length (filter p t).

Definition is_some {A} (o : option A) : bool :=
  match o with Some _ => true | None => false end.

(** The correspondence between the fields of an entry of [results]. *)
Definition field_correspondence (r : IterationResult) : Prop :=
  (r_status r = "ok" \/ r_status r = "fail")
  /\ (r_status r = "ok" <->
      is_some (r_txHash r) = true /\ r_step r = None /\ r_error r = None)
  /\ (r_status r = "fail" <->
      (r_step r = Some "create" \/ r_step r = Some "fund"
       \/ r_step r = Some "store")
      /\ is_some (r_error r) = true)
  /\ (is_some (r_address r) = true <-> r_step r <> Some "create").

(** A computation adds events to the history and never rewrites it; [P]
    holds of every event it adds. *)
Definition emits {A} (P : Event -> Prop) (m : M A) : Prop :=
  forall t, exists new, fst (m t) = (new ++ t)%list /\ Forall P new.

(** ** The calls an iteration makes *)

(** The call whose gas is estimated for the payload [data]. *)
Definition estimate_request (cfg : Config) (wallet : Wallet) (data : string)
  : CallRequest :=
  {| call_to := CONTRACT_ADDRESS cfg; call_from := address wallet;
     call_data := data |}.

(** The payload transaction with payload [data] and gas limit [gasLimit]. *)
Definition payload_request (cfg : Config) (data : string) (gasLimit : Z)
  : TxRequest :=
  {| tx_to := CONTRACT_ADDRESS cfg; tx_value := None;
     tx_data := Some data; tx_gasLimit := Some gasLimit |}.

(** The transfer of [value] to [addr]. *)
Definition funding_request (addr : string) (value : Z) : TxRequest :=
  {| tx_to := addr; tx_value := Some value;
     tx_data := None; tx_gasLimit := None |}.

(** The history after a funding attempt that the network rejected with [e]:
    the submission, then the call of the observation hook. *)
Definition rejected_funding (w : World) (cfg : Config) (addr : string)
    (value : Z) (e : JsError) (t : Trace) : Trace :=
  EvConsoleWarn [LogStr "fundWallet attempt failed:"; message_or_self e]
  :: EvSendTransaction (w_addressOf w (FUNDER_PRIVATE_KEY cfg))
       (funding_request addr value)
  :: t.

(** The entry of the wallet ledger for the wallet of iteration [i]. *)
Definition ledger_entry (i : nat) (wallet : Wallet) : SavedWallet :=
  {| sw_index := i; sw_address := address wallet;
     sw_privateKey := privateKey wallet |}.

(** [savedWallets] once the wallet of iteration [i] has been provisioned. *)
Definition ledger_after (cfg : Config) (i : nat) (wallet : Wallet)
    (saved : list SavedWallet) : list SavedWallet :=
  if SAVE_WALLETS cfg then push saved (ledger_entry i wallet) else saved.

(** The history once the ledger has been flushed to disk, when it is kept. *)
Definition history_after_save (cfg : Config) (i : nat) (wallet : Wallet)
    (saved : list SavedWallet) (t : Trace) : Trace :=
  if SAVE_WALLETS cfg then
    EvWriteFile "wallets.json"
      (WalletsJson (push saved (ledger_entry i wallet))) :: t
  else t.

(** The ledger write of iteration [i] is not refused (there is none when the
    ledger is not kept). *)
Definition ledger_saved (w : World) (cfg : Config) (i : nat) (wallet : Wallet)
    (saved : list SavedWallet) (t : Trace) : Prop :=
  SAVE_WALLETS cfg = true ->
  w_writeFileSync w t "wallets.json"
    (WalletsJson (push saved (ledger_entry i wallet))) = Normal tt.

(** The entries of [results], by outcome. *)
Definition create_failure (i : nat) (err : JsError) : IterationResult :=
  {| r_index := i; r_address := None; r_txHash := None; r_status := "fail";
     r_step := Some "create"; r_error := Some (String_of_error err) |}.

Definition fund_failure (i : nat) (wallet : Wallet) (err : JsError)
  : IterationResult :=
  {| r_index := i; r_address := Some (address wallet); r_txHash := None;
     r_status := "fail"; r_step := Some "fund";
     r_error := Some (String_of_error err) |}.

Definition store_failure (i : nat) (wallet : Wallet) (err : JsError)
  : IterationResult :=
  {| r_index := i; r_address := Some (address wallet); r_txHash := None;
     r_status := "fail"; r_step := Some "store";
     r_error := Some (String_of_error err) |}.

(** What the operator reads when the seed phrase is missing. *)
Definition missing_seed_line : Event :=
  EvConsoleError [LogStr "Failed to create wallet:";
                  LogStr "MNEMONIC required when --useHd is set."].

(** ** Sample inputs *)

Definition sample_wallet (t : Trace) : Wallet :=
  {| address := "0xwallet" ++ string_of_index (List.length t);
     privateKey := "0xkey" ++ string_of_index (List.length t) |}.

(** A node that accepts everything, behind ethers 6, the version whose
    names the script uses ([ethers.JsonRpcProvider], [ethers.parseEther]):
    it has neither [ethers.HDNode] nor [ethers.BigInt], and a use of either
    throws a [TypeError]. *)
Definition world_ok : World :=
  {| w_createRandom := fun t => Normal (sample_wallet t);
     w_deriveHd := fun _ _ =>
       Throw (mkJsError "TypeError"
                "Cannot read properties of undefined (reading 'fromMnemonic')");
     w_parseEther := fun _ => Normal 2000000000000%Z;
     w_encodeFunctionData := fun m => Normal ("0x32af2edb" ++ m);
     w_BigInt := fun _ =>
       Throw (mkJsError "TypeError" "ethers.BigInt is not a function");
     w_getBalance := fun _ _ => Normal 2000000000000%Z;
     w_estimateGas := fun _ _ => Normal 60000%Z;
     w_sendTransaction := fun t _ _ =>
       Normal ("0xtx" ++ string_of_index (List.length t));
     w_wait := fun _ h => Normal ("receipt of " ++ h);
     w_writeFileSync := fun _ _ _ => Normal tt;
     w_now := fun _ => "2025-01-01T00:00:00.000Z";
     w_addressOf := fun _ => "0xfunder";
     w_newFunder := fun _ _ => Normal tt |}.

(** A node that rejects every transfer of value (the funding step). *)
Definition world_funding_rejected : World :=
  {| w_createRandom := w_createRandom world_ok;
     w_deriveHd := w_deriveHd world_ok;
     w_parseEther := w_parseEther world_ok;
     w_encodeFunctionData := w_encodeFunctionData world_ok;
     w_BigInt := w_BigInt world_ok;
     w_getBalance := w_getBalance world_ok;
     w_estimateGas := w_estimateGas world_ok;
     w_sendTransaction := fun t from req =>
       match tx_data req with
       | None => Throw (Error "insufficient funds")
       | Some _ => w_sendTransaction world_ok t from req
       end;
     w_wait := w_wait world_ok;
     w_writeFileSync := w_writeFileSync world_ok;
     w_now := w_now world_ok;
     w_addressOf := w_addressOf world_ok;
     w_newFunder := w_newFunder world_ok |}.

(** A node that rejects every contract call (the payload step). *)
Definition world_store_rejected : World :=
  {| w_createRandom := w_createRandom world_ok;
     w_deriveHd := w_deriveHd world_ok;
     w_parseEther := w_parseEther world_ok;
     w_encodeFunctionData := w_encodeFunctionData world_ok;
     w_BigInt := w_BigInt world_ok;
     w_getBalance := w_getBalance world_ok;
     w_estimateGas := w_estimateGas world_ok;
     w_sendTransaction := fun t from req =>
       match tx_data req with
       | None => w_sendTransaction world_ok t from req
       | Some _ => Throw (Error "nonce too low")
       end;
     w_wait := w_wait world_ok;
     w_writeFileSync := w_writeFileSync world_ok;
     w_now := w_now world_ok;
     w_addressOf := w_addressOf world_ok;
     w_newFunder := w_newFunder world_ok |}.

(** A node whose gas estimation always fails. *)
Definition world_estimate_fails : World :=
  {| w_createRandom := w_createRandom world_ok;
     w_deriveHd := w_deriveHd world_ok;
     w_parseEther := w_parseEther world_ok;
     w_encodeFunctionData := w_encodeFunctionData world_ok;
     w_BigInt := w_BigInt world_ok;
     w_getBalance := w_getBalance world_ok;
     w_estimateGas := fun _ _ => Throw (Error "execution reverted");
     w_sendTransaction := w_sendTransaction world_ok;
     w_wait := w_wait world_ok;
     w_writeFileSync := w_writeFileSync world_ok;
     w_now := w_now world_ok;
     w_addressOf := w_addressOf world_ok;
     w_newFunder := w_newFunder world_ok |}.


(** A funder key that ethers refuses. *)
Definition world_malformed_key : World :=
  {| w_createRandom := w_createRandom world_ok;
     w_deriveHd := w_deriveHd world_ok;
     w_parseEther := w_parseEther world_ok;
     w_encodeFunctionData := w_encodeFunctionData world_ok;
     w_BigInt := w_BigInt world_ok;
     w_getBalance := w_getBalance world_ok;
     w_estimateGas := w_estimateGas world_ok;
     w_sendTransaction := w_sendTransaction world_ok;
     w_wait := w_wait world_ok;
     w_writeFileSync := w_writeFileSync world_ok;
     w_now := w_now world_ok;
     w_addressOf := w_addressOf world_ok;
     w_newFunder := fun _ _ =>
       Throw (mkJsError "TypeError" "invalid private key") |}.

(** No option on the command line. *)
Definition cli_none : Cli :=
  {| cli_num := None; cli_rate := None; cli_amount := None;
     cli_useHd := None; cli_saveWallets := None; cli_rpc := None;
     cli_contract := None; cli_message := None |}.

(** [--num n] *)
Definition cli_num_only (n : Z) : Cli :=
  {| cli_num := Some n; cli_rate := None; cli_amount := None;
     cli_useHd := None; cli_saveWallets := None; cli_rpc := None;
     cli_contract := None; cli_message := None |}.

(** [--num n --rate r] *)
Definition cli_num_rate (n r : Z) : Cli :=
  {| cli_num := Some n; cli_rate := Some r; cli_amount := None;
     cli_useHd := None; cli_saveWallets := None; cli_rpc := None;
     cli_contract := None; cli_message := None |}.

(** [--useHd --num n] *)
Definition cli_hd (n : Z) : Cli :=
  {| cli_num := Some n; cli_rate := None; cli_amount := None;
     cli_useHd := Some true; cli_saveWallets := None; cli_rpc := None;
     cli_contract := None; cli_message := None |}.

(** The [.env] of the README: the three required settings, no mnemonic. *)
Definition env_readme : Env :=
  {| env_RPC_URL := Some "https://mainnet.base.org";
     env_CONTRACT_ADDRESS := Some "0xDD4014AabE02BC60dBaDcc43b45aF7c2E4d69356";
     env_FUNDER_PRIVATE_KEY := Some "0xf00d";
     env_MNEMONIC := None |}.

(** The same without the key of the funder. *)
Definition env_no_key : Env :=
  {| env_RPC_URL := Some "https://mainnet.base.org";
     env_CONTRACT_ADDRESS := Some "0xDD4014AabE02BC60dBaDcc43b45aF7c2E4d69356";
     env_FUNDER_PRIVATE_KEY := None;
     env_MNEMONIC := None |}.

Definition cfg_readme (cli : Cli) : Config := config (argv cli env_readme) env_readme.

(** ** Reading a run: transfers, pauses and the ledger *)

(** A transfer of value from the funder: the request has no payload. *)
Definition is_funding (ev : Event) : bool :=
  match ev with
  | EvSendTransaction _ req => negb (is_some (tx_data req))
  | _ => false
  end.

(** A call of the contract from a created wallet: the request has a
    payload. *)
Definition is_payload (ev : Event) : bool :=
  match ev with
  | EvSendTransaction _ req => is_some (tx_data req)
  | _ => false
  end.

Definition is_ledger_write (ev : Event) : bool :=
  match ev with
  | EvWriteFile _ (WalletsJson _) => true
  | _ => false
  end.

Definition is_create_random (ev : Event) : bool :=
  match ev with EvCreateRandom => true | _ => false end.

(** The milliseconds spent in [sleep] over a history. *)
Fixpoint total_sleep (t : Trace) : Z :=
  match t with
  | [] => 0
  | EvSleep ms :: t' => ms + total_sleep t'
  | _ :: t' => total_sleep t'
  end.

(** The entry records an iteration that got to the payload step: a success,
    or a failure of the store step. *)
Definition reached_payload (r : IterationResult) : bool :=
  match r_step r with
  | None => true
  | Some step => String.eqb step "store"
  end.

(** The wallets a results sequence shows as created: index and address of
    every entry that carries an address. *)
Fixpoint provisioned (results : list IterationResult) : list (nat * string) :=
  match results with
  | [] => []
  | r :: rest =>
      match r_address r with
      | Some a => (r_index r, a) :: provisioned rest
      | None => provisioned rest
      end
  end.

(** Index and address of the entries of a wallet ledger. *)
Definition ledger_keys (saved : list SavedWallet) : list (nat * string) :=
  map (fun s => (sw_index s, sw_address s)) saved.

(** The wallet ledger as last handed to the file system; empty when it never
    was. *)
Fixpoint last_ledger (t : Trace) : list SavedWallet :=
  match t with
  | [] => []
  | EvWriteFile _ (WalletsJson l) :: _ => l
  | _ :: t' => last_ledger t'
  end.

(** The address a transfer of value goes to; [None] for any other event. *)
Definition transfer_target (ev : Event) : option string :=
  match ev with
  | EvSendTransaction _ req =>
      if is_some (tx_data req) then None else Some (tx_to req)
  | _ => None
  end.

(** Every transfer of value in the history goes to an address that the
    ledger, as last written before the transfer, holds. *)
Fixpoint funded_after_saved (t : Trace) : Prop :=
  match t with
  | [] => True
  | ev :: before =>
      match transfer_target ev with
      | Some a => In a (map sw_address (last_ledger before))
      | None => True
      end
      /\ funded_after_saved before
  end.

(** Every payload step in the history (it opens with the balance query)
    comes right after a pause of one second, itself right after the
    confirmation of a transfer. *)
Fixpoint settled_before_store (t : Trace) : Prop :=
  match t with
  | [] => True
  | ev :: before =>
      match ev with
      | EvGetBalance _ =>
          exists hash rest, before = EvSleep 1000 :: EvWait hash :: rest
      | _ => True
      end
      /\ settled_before_store before
  end.

(** The history after a funding attempt whose transfer the network accepted
    as [tx] and whose confirmation failed with [e]: the submission, the
    wait, then the call of the observation hook. *)
Definition unconfirmed_funding (w : World) (cfg : Config) (addr : string)
    (value : Z) (tx : string) (e : JsError) (t : Trace) : Trace :=
  EvConsoleWarn [LogStr "fundWallet attempt failed:"; message_or_self e]
  :: EvWait tx
  :: EvSendTransaction (w_addressOf w (FUNDER_PRIVATE_KEY cfg))
       (funding_request addr value)
  :: t.

(** The history holds a contract call from [a] that the node accepted with
    hash [h] and then confirmed. *)
Definition confirmed_in (w : World) (cfg : Config) (a h : string) (t : Trace)
  : Prop :=
  exists rest t0 data gasLimit rcpt,
    t = (rest ++ EvWait h
              :: EvSendTransaction a (payload_request cfg data gasLimit)
              :: t0)%list
    /\ w_sendTransaction w t0 a (payload_request cfg data gasLimit) = Normal h
    /\ w_wait w (EvSendTransaction a (payload_request cfg data gasLimit) :: t0) h
         = Normal rcpt.

(** Any event but the balance query. *)
Definition not_balance_query (ev : Event) : Prop :=
  match ev with EvGetBalance _ => False | _ => True end.

(** The message stored by iteration [i]. *)
Definition store_message (cfg : Config) (i : nat) : string :=
  MESSAGE_BASE cfg ++ " (#" ++ string_of_index i ++ ")".

(** The derivation path of the wallet of iteration [i]. *)
Definition hd_path (i : nat) : string := HD_PATH_BASE ++ string_of_index i.

(** The entry pushed by an iteration that succeeds. *)
Definition success (i : nat) (wallet : Wallet) (sendRes : SendResult)
  : IterationResult :=
  {| r_index := i; r_address := Some (address wallet);
     r_txHash := Some (txHash sendRes); r_status := "ok";
     r_step := None; r_error := None |}.

(** When an iteration starts: every transfer so far went to a wallet of the
    ledger as written before it; the ledger on disk is [savedWallets]; and
    the ledger lists the wallets that [results] shows as created. *)
Definition ledger_invariant (results : list IterationResult)
    (saved : list SavedWallet) (t : Trace) : Prop :=
  funded_after_saved t
  /\ last_ledger t = saved
  /\ ledger_keys saved = provisioned results.

(** ** The paths through an iteration *)

(** What the funding step with its retries can add to the history. *)
Definition fund_event (w : World) (cfg : Config) (addr : string) (ev : Event)
  : Prop :=
  (exists value,
      w_parseEther w (FUND_AMOUNT cfg) = Normal value
      /\ ev = EvSendTransaction (w_addressOf w (FUNDER_PRIVATE_KEY cfg))
                (funding_request addr value))
  \/ (exists hash, ev = EvWait hash)
  \/ (exists args, ev = EvConsoleWarn args).

(** What the payload step with its retries can add to the history after the
    balance query. *)
Definition store_event (cfg : Config) (wallet : Wallet) (ev : Event) : Prop :=
  (exists data, ev = EvEstimateGas (estimate_request cfg wallet data))
  \/ (exists data gasLimit,
        ev = EvSendTransaction (address wallet)
               (payload_request cfg data gasLimit))
  \/ (exists hash, ev = EvWait hash)
  \/ (exists args, ev = EvConsoleWarn args).

(** The five ways through the body of the loop, each with the history and
    the arrays it leaves. *)
Inductive iteration_path (w : World) (cfg : Config) (i : nat)
    (results : list IterationResult) (saved : list SavedWallet) (t : Trace)
  : Trace * Completion Arrays -> Prop :=
| path_create_failed (t1 : Trace) (err : JsError) :
    createWallet w cfg i t = (t1, Throw err) ->
    iteration_path w cfg i results saved t
      (EvConsoleError [LogStr "Failed to create wallet:"; message_or_self err]
       :: t1,
       Normal (push results (create_failure i err), saved))
| path_ledger_refused (t1 : Trace) (wallet : Wallet) (err : JsError) :
    createWallet w cfg i t = (t1, Normal wallet) ->
    SAVE_WALLETS cfg = true ->
    w_writeFileSync w t1 "wallets.json"
      (WalletsJson (push saved (ledger_entry i wallet))) = Throw err ->
    iteration_path w cfg i results saved t
      (history_after_save cfg i wallet saved t1, Throw err)
| path_fund_failed (t1 t3 : Trace) (wallet : Wallet) (err : JsError) :
    createWallet w cfg i t = (t1, Normal wallet) ->
    ledger_saved w cfg i wallet saved t1 ->
    pRetry (fundWallet w cfg (address wallet)) 2 fundOnFailedAttempt
      (history_after_save cfg i wallet saved t1) = (t3, Throw err) ->
    iteration_path w cfg i results saved t
      (EvConsoleError
         [LogStr ("Funding failed for " ++ address wallet ++ ":");
          message_or_self err]
       :: t3,
       Normal (push results (fund_failure i wallet err),
               ledger_after cfg i wallet saved))
| path_store_failed (t1 t3 t4 : Trace) (wallet : Wallet) (fundRes : string)
    (err : JsError) :
    createWallet w cfg i t = (t1, Normal wallet) ->
    ledger_saved w cfg i wallet saved t1 ->
    pRetry (fundWallet w cfg (address wallet)) 2 fundOnFailedAttempt
      (history_after_save cfg i wallet saved t1) = (t3, Normal fundRes) ->
    sendStoreMessageTx w cfg wallet (store_message cfg i) (EvSleep 1000 :: t3)
      = (t4, Throw err) ->
    iteration_path w cfg i results saved t
      (EvSleep (RATE_SECONDS cfg * 1000)
       :: EvConsoleError
            [LogStr ("storeMessage failed for " ++ address wallet ++ ":");
             message_or_self err]
       :: t4,
       Normal (push results (store_failure i wallet err),
               ledger_after cfg i wallet saved))
| path_stored (t1 t3 t4 : Trace) (wallet : Wallet) (fundRes : string)
    (sendRes : SendResult) :
    createWallet w cfg i t = (t1, Normal wallet) ->
    ledger_saved w cfg i wallet saved t1 ->
    pRetry (fundWallet w cfg (address wallet)) 2 fundOnFailedAttempt
      (history_after_save cfg i wallet saved t1) = (t3, Normal fundRes) ->
    sendStoreMessageTx w cfg wallet (store_message cfg i) (EvSleep 1000 :: t3)
      = (t4, Normal sendRes) ->
    iteration_path w cfg i results saved t
      (EvSleep (RATE_SECONDS cfg * 1000) :: t4,
       Normal (push results (success i wallet sendRes),
               ledger_after cfg i wallet saved)).

(** What a submission of the script looks like: a transfer of the funding
    amount from the funder, without payload or gas limit; or a call of the
    contract, without value and with a gas limit. *)
Definition submission_shape (w : World) (cfg : Config) (ev : Event) : Prop :=
  match ev with
  | EvSendTransaction from req =>
      (from = w_addressOf w (FUNDER_PRIVATE_KEY cfg)
       /\ exists addr value,
            w_parseEther w (FUND_AMOUNT cfg) = Normal value
            /\ req = funding_request addr value)
      \/ (exists data gasLimit, req = payload_request cfg data gasLimit)
  | _ => True
  end.

(** A computation adds at most [k] events that satisfy [p]. *)
Definition spends {A} (p : Event -> bool) (k : nat) (m : M A) : Prop :=
  forall t, exists new, fst (m t) = (new ++ t)%list /\ count p new <= k.

(** ** More sample inputs *)

(** A node that cannot answer balance queries. *)
Definition world_balance_unavailable : World :=
  {| w_createRandom := w_createRandom world_ok;
     w_deriveHd := w_deriveHd world_ok;
     w_parseEther := w_parseEther world_ok;
     w_encodeFunctionData := w_encodeFunctionData world_ok;
     w_BigInt := w_BigInt world_ok;
     w_getBalance := fun _ _ => Throw (Error "rate limited");
     w_estimateGas := w_estimateGas world_ok;
     w_sendTransaction := w_sendTransaction world_ok;
     w_wait := w_wait world_ok;
     w_writeFileSync := w_writeFileSync world_ok;
     w_now := w_now world_ok;
     w_addressOf := w_addressOf world_ok;
     w_newFunder := w_newFunder world_ok |}.

(** A node that accepts everything but loses the confirmation of the first
    transaction it is asked to wait for. *)
Definition world_confirmation_lost_once : World :=
  {| w_createRandom := w_createRandom world_ok;
     w_deriveHd := w_deriveHd world_ok;
     w_parseEther := w_parseEther world_ok;
     w_encodeFunctionData := w_encodeFunctionData world_ok;
     w_BigInt := w_BigInt world_ok;
     w_getBalance := w_getBalance world_ok;
     w_estimateGas := w_estimateGas world_ok;
     w_sendTransaction := w_sendTransaction world_ok;
     w_wait := fun t h =>
       if existsb (fun ev => match ev with EvWait _ => true | _ => false end) t
       then w_wait world_ok t h
       else Throw (Error "timeout waiting for confirmation");
     w_writeFileSync := w_writeFileSync world_ok;
     w_now := w_now world_ok;
     w_addressOf := w_addressOf world_ok;
     w_newFunder := w_newFunder world_ok |}.

(** A library that cannot generate random wallets. *)
Definition world_no_entropy : World :=
  {| w_createRandom := fun _ => Throw (Error "no entropy source");
     w_deriveHd := w_deriveHd world_ok;
     w_parseEther := w_parseEther world_ok;
     w_encodeFunctionData := w_encodeFunctionData world_ok;
     w_BigInt := w_BigInt world_ok;
     w_getBalance := w_getBalance world_ok;
     w_estimateGas := w_estimateGas world_ok;
     w_sendTransaction := w_sendTransaction world_ok;
     w_wait := w_wait world_ok;
     w_writeFileSync := w_writeFileSync world_ok;
     w_now := w_now world_ok;
     w_addressOf := w_addressOf world_ok;
     w_newFunder := w_newFunder world_ok |}.

(** The environment of the README with a mnemonic added. *)
Definition env_seeded : Env :=
  {| env_RPC_URL := Some "https://mainnet.base.org";
     env_CONTRACT_ADDRESS := Some "0xDD4014AabE02BC60dBaDcc43b45aF7c2E4d69356";
     env_FUNDER_PRIVATE_KEY := Some "0xf00d";
     env_MNEMONIC := Some "test test test test test test test test test test test junk" |}.

(** [--saveWallets false --num n] *)
Definition cli_unsaved (n : Z) : Cli :=
  {| cli_num := Some n; cli_rate := None; cli_amount := None;
     cli_useHd := None; cli_saveWallets := Some false; cli_rpc := None;
     cli_contract := None; cli_message := None |}.

(** * Properties *)

(** ** Histories only grow *)

Section Emits.

Variable P : Event -> Prop.

Lemma emits_ret {A} (a : A) : emits P (ret a).
Proof. intros t; exists []; split; [reflexivity | constructor]. Qed.

Lemma emits_throw {A} (e : JsError) : emits P (@throw A e).
Proof. intros t; exists []; split; [reflexivity | constructor]. Qed.

Lemma emits_lift {A} (c : Completion A) : emits P (lift c).
Proof. intros t; exists []; split; [reflexivity | constructor]. Qed.

Lemma emits_call {A} (ev : Event) (answer : Trace -> Completion A) :
  P ev -> emits P (call ev answer).
Proof.
  intros Hev t; exists [ev]; split; [reflexivity | ].
  constructor; [assumption | constructor].
Qed.

Lemma emits_bind {A B} (m : M A) (k : A -> M B) :
  emits P m -> (forall a, emits P (k a)) -> emits P (bind m k).
Proof.
  intros Hm Hk t. unfold bind.
  destruct (Hm t) as [n1 [E1 F1]].
  destruct (m t) as [t1 [a | e]]; simpl in E1; subst t1.
  - destruct (Hk a (n1 ++ t)%list) as [n2 [E2 F2]].
    exists (n2 ++ n1)%list. rewrite E2, app_assoc. split; [reflexivity | ].
    apply Forall_app; split; assumption.
  - exists n1. split; [reflexivity | assumption].
Qed.

Lemma emits_try {A} (m : M A) : emits P m -> emits P (try m).
Proof.
  intros Hm t. unfold try.
  destruct (Hm t) as [n [E F]].
  destruct (m t) as [t1 c]; simpl in *. exists n. split; assumption.
Qed.

Lemma emits_pRetry {A} (input : M A) (hook : JsError -> M unit)
    (retries : nat) :
  emits P input -> (forall e, emits P (hook e)) ->
  emits P (pRetry input retries hook).
Proof.
  intros Hin Hhook. induction retries as [| n IH]; simpl.
  - apply emits_bind; [apply emits_try; assumption | ].
    intros [a | e]; [apply emits_ret | ].
    apply emits_bind; [apply Hhook | intros _; apply emits_throw].
  - apply emits_bind; [apply emits_try; assumption | ].
    intros [a | e]; [apply emits_ret | ].
    apply emits_bind; [apply Hhook | intros _; apply IH].
Qed.

End Emits.

(** What [emits] says of a run from a given history. *)
Lemma emits_run {A} (P : Event -> Prop) (m : M A) (t t' : Trace)
    (c : Completion A) :
  emits P m -> m t = (t', c) ->
  exists new, t' = (new ++ t)%list /\ Forall P new.
Proof.
  intros Hm E. destruct (Hm t) as [new [E1 F1]].
  rewrite E in E1. simpl in E1. exists new. split; assumption.
Qed.

Lemma emits_weaken {A} (P Q : Event -> Prop) (m : M A) :
  (forall ev, P ev -> Q ev) -> emits P m -> emits Q m.
Proof.
  intros HPQ Hm t. destruct (Hm t) as [new [E F]].
  exists new. split; [assumption | ].
  eapply Forall_impl; [ | exact F]. assumption.
Qed.

(** The steps of an iteration, one by one. *)
Ltac emits_step :=
  first
    [ apply emits_ret
    | apply emits_throw
    | apply emits_lift
    | apply emits_call; try reflexivity
    | apply emits_try
    | apply emits_pRetry; [ | intros ? ]
    | apply emits_bind; [ | intros ? ]
    | match goal with
      | |- emits _ (match ?x with _ => _ end) => destruct x
      | |- emits _ (if ?x then _ else _) => destruct x
      | |- emits _ (let (_, _) := ?x in _) => destruct x
      end ].

Section ScriptEmits.

Variable w : World.
Variable cfg : Config.

Lemma iteration_emits (i : nat) (arrays : Arrays) :
  emits (fun ev => iteration_event cfg ev = true) (iteration w cfg i arrays).
Proof.
  unfold iteration, createWallet, fundWallet, sendStoreMessageTx,
    storeAttempt, writeFileSync, console_error, console_warn, sleep,
    fundOnFailedAttempt, storeOnFailedAttempt.
  repeat emits_step.
  simpl. rewrite Z.eqb_refl. apply orb_true_r.
Qed.

Lemma loop_emits (n i : nat) (arrays : Arrays) :
  emits (fun ev => iteration_event cfg ev = true) (loop w cfg n i arrays).
Proof.
  revert i arrays. induction n as [| n IH]; intros i arrays; simpl.
  - apply emits_ret.
  - apply emits_bind; [apply iteration_emits | intros a; apply IH].
Qed.

End ScriptEmits.

(** ** One iteration *)

Ltac fields :=
  unfold field_correspondence; simpl;
  intuition (try discriminate; try congruence; auto).

(** Case analysis on the next answer of the world in the goal. *)
Ltac run_step :=
  match goal with
  | |- context [w_writeFileSync ?w ?t ?p ?c] =>
      destruct (w_writeFileSync w t p c) as [[] | ?] eqn:?
  | |- context [pRetry ?a ?b ?c ?t] =>
      destruct (pRetry a b c t) as [? [? | ?]] eqn:?
  | |- context [sendStoreMessageTx ?w ?c ?wl ?m ?t] =>
      destruct (sendStoreMessageTx w c wl m t) as [? [? | ?]] eqn:?
  end; cbv beta iota zeta.

Ltac run_iteration :=
  unfold writeFileSync, sleep, console_error, call, bind, try, ret;
  cbv beta iota zeta; repeat run_step.

Section Iteration.

Variable w : World.
Variable cfg : Config.

(** Whatever the world answers, an iteration either pushes exactly one
    well-formed entry carrying its index, or is cut short by a file write
    that threw. *)
Lemma iteration_cases (i : nat) (results : list IterationResult)
    (saved : list SavedWallet) (t : Trace) :
  match iteration w cfg i (results, saved) t with
  | (_, Normal (results', _)) =>
      exists r, results' = push results r /\ r_index r = i
                /\ field_correspondence r
                /\ (is_some (r_address r) = false <->
                    exists t1 e, createWallet w cfg i t = (t1, Throw e))
  | (_, Throw e) =>
      exists th path content, w_writeFileSync w th path content = Throw e
  end.
Proof.
  unfold iteration, bind, try.
  destruct (createWallet w cfg i t) as [t1 [wallet | e]] eqn:Ecreate.
  - destruct (SAVE_WALLETS cfg); run_iteration; eauto;
      (eexists; split; [reflexivity | ]; split; [reflexivity | ];
       split; [fields | ]; simpl; split;
       [discriminate | intros [? [? H]]; discriminate H]).
  - unfold console_error, call, ret. simpl.
    eexists; split; [reflexivity | ]. split; [reflexivity | ].
    split; [fields | ]. simpl. split; eauto.
Qed.

End Iteration.

(** ** The loop and the run *)

Lemma summaries_app (new t : Trace) (cfg : Config) :
  Forall (fun ev => iteration_event cfg ev = true) new ->
  summaries (new ++ t)%list = summaries t.
Proof.
  induction 1 as [| ev new Hev _ IH]; simpl; [reflexivity | ].
  destruct ev as [ | | | | | | path [l | s] | | ]; simpl in *;
    try assumption. discriminate.
Qed.

Section Run.

Variable w : World.
Variable cfg : Config.

Lemma loop_S (n i : nat) (arrays : Arrays) :
  loop w cfg (S n) i arrays =
    bind (iteration w cfg i arrays) (fun arrays' => loop w cfg n (S i) arrays').
Proof. reflexivity. Qed.

Lemma loop_cases (n i : nat) (results : list IterationResult)
    (saved : list SavedWallet) (t : Trace) :
  match loop w cfg n i (results, saved) t with
  | (_, Normal (results', _)) =>
      exists new, results' = (results ++ new)%list
                  /\ map r_index new = seq i n
                  /\ Forall field_correspondence new
  | (_, Throw e) =>
      exists th path content, w_writeFileSync w th path content = Throw e
  end.
Proof.
  revert i results saved t.
  induction n as [| n IH]; intros i results saved t.
  - exists []. rewrite app_nil_r. repeat split. constructor.
  - rewrite loop_S. unfold bind. pose proof (iteration_cases w cfg i results saved t) as Hit.
    destruct (iteration w cfg i (results, saved) t)
      as [t1 [[results1 saved1] | e]]; [ | exact Hit].
    destruct Hit as [r [-> [Hi [Hr _]]]].
    specialize (IH (S i) (push results r) saved1 t1).
    destruct (loop w cfg n (S i) (push results r, saved1) t1)
      as [t2 [[results2 saved2] | e]]; [ | exact IH].
    destruct IH as [new [-> [Hidx Hwf]]].
    exists (r :: new). unfold push. rewrite <- app_assoc. simpl.
    repeat split; [congruence | constructor; assumption].
Qed.

(** A run from the empty history: either the loop completes and the summary
    of its [Z.to_nat NUM] entries is handed to the file system, or a ledger
    write threw on the way. *)
Lemma main_cases :
  (exists new results,
      main w cfg [] =
        (EvWriteFile "farm-results.json"
           (ResultsJson (summary cfg (w_now w new) results)) :: new,
         w_writeFileSync w new "farm-results.json"
           (ResultsJson (summary cfg (w_now w new) results)))
      /\ Forall (fun ev => iteration_event cfg ev = true) new
      /\ map r_index results = seq 0 (Z.to_nat (NUM cfg))
      /\ Forall field_correspondence results)
  \/ (exists new e th path content,
      main w cfg [] = (new, Throw e)
      /\ Forall (fun ev => iteration_event cfg ev = true) new
      /\ w_writeFileSync w th path content = Throw e).
Proof.
  unfold main, bind.
  pose proof (loop_cases (Z.to_nat (NUM cfg)) 0 [] [] []) as Hloop.
  destruct (loop w cfg (Z.to_nat (NUM cfg)) 0 ([], []) [])
    as [t1 [[results saved] | e]] eqn:Eloop.
  - left. destruct Hloop as [new [-> [Hidx Hwf]]].
    destruct (emits_run _ _ _ _ _ (loop_emits w cfg _ _ _) Eloop)
      as [evs [-> Hevs]].
    rewrite app_nil_r. exists evs, new. simpl.
    unfold writeFileSync, call. auto.
  - right. destruct Hloop as [th [path [content Hw]]].
    destruct (emits_run _ _ _ _ _ (loop_emits w cfg _ _ _) Eloop)
      as [evs [-> Hevs]].
    rewrite app_nil_r. exists evs, e, th, path, content. auto.
Qed.

End Run.

(** With the three required settings present the process is [main] and its
    [catch]. *)
Lemma program_configured (w : World) (cli : Cli) (env : Env) :
  config_missing cli env = false ->
  program w cli env =
    match main w (config (argv cli env) env) [] with
    | (t, Normal _) => {| exit_status := 0; effects := t |}
    | (t, Throw err) =>
        {| exit_status := 1;
           effects := EvConsoleError [LogStr "Fatal error:"; LogErr err] :: t |}
    end.
Proof.
  unfold config_missing, program. intros H.
  apply orb_false_elim in H. destruct H as [H H3].
  apply orb_false_elim in H. destruct H as [H1 H2].
  rewrite H1, H2, H3. reflexivity.
Qed.

(** With one of them missing the process stops at once, with status 1 and
    one line on the error stream. *)
Lemma program_unconfigured (w : World) (cli : Cli) (env : Env) :
  config_missing cli env = true ->
  exists line, program w cli env = die line.
Proof.
  unfold config_missing, program. intros H.
  destruct (missing (rpc (argv cli env))); [eauto | ].
  destruct (missing (contract (argv cli env))); [eauto | ].
  destruct (missing (env_FUNDER_PRIVATE_KEY env)); [eauto | discriminate].
Qed.

Lemma summaries_iterations (new : Trace) (cfg : Config) :
  Forall (fun ev => iteration_event cfg ev = true) new -> summaries new = [].
Proof.
  intros H. rewrite <- (app_nil_r new). apply (summaries_app new [] cfg H).
Qed.

(** The three ways a configured process can end: the summary is written and
    the status is 0; the summary write throws; a ledger write throws during
    the loop.  In the last two the error reaches the [catch] of [main()] and
    the status is 1. *)
Lemma program_cases (w : World) (cli : Cli) (env : Env) :
  config_missing cli env = false ->
  let cfg := config (argv cli env) env in
  (exists new results,
      let s := summary cfg (w_now w new) results in
      let ev := EvWriteFile "farm-results.json" (ResultsJson s) in
      Forall (fun ev => iteration_event cfg ev = true) new
      /\ map r_index results = seq 0 (Z.to_nat (NUM cfg))
      /\ Forall field_correspondence results
      /\ ((w_writeFileSync w new "farm-results.json" (ResultsJson s) = Normal tt
           /\ program w cli env = {| exit_status := 0; effects := ev :: new |})
          \/ (exists e,
               w_writeFileSync w new "farm-results.json" (ResultsJson s) = Throw e
               /\ program w cli env =
                    {| exit_status := 1;
                       effects := EvConsoleError [LogStr "Fatal error:"; LogErr e]
                                  :: ev :: new |})))
  \/ (exists new e th path content,
        Forall (fun ev => iteration_event cfg ev = true) new
        /\ w_writeFileSync w th path content = Throw e
        /\ program w cli env =
             {| exit_status := 1;
                effects := EvConsoleError [LogStr "Fatal error:"; LogErr e]
                           :: new |}).
Proof.
  intros Hcfg cfg. rewrite (program_configured w cli env Hcfg). fold cfg.
  destruct (main_cases w cfg)
    as [[new [results [E [Hnew [Hidx Hwf]]]]]
       | [new [e [th [path [content [E [Hnew Hw]]]]]]]]; rewrite E.
  - left. exists new, results. cbv zeta.
    split; [assumption | ]. split; [assumption | ]. split; [assumption | ].
    destruct (w_writeFileSync w new "farm-results.json"
                (ResultsJson (summary cfg (w_now w new) results)))
      as [[] | e]; [left; auto | right; eauto].
  - right. exists new, e, th, path, content. auto.
Qed.

(** ** The claims *)

(** C1: for every N >= 0 and every pattern of failures, the results of the
    run summary handed to the file system hold exactly one entry per
    iteration, N in total, with the indices 0..N-1 in order; and when no file
    write is refused that summary is written. *)
Theorem results_one_entry_per_iteration
    (w : World) (cli : Cli) (env : Env) (N : Z) :
  config_missing cli env = false ->
  num (argv cli env) = N ->
  (0 <= N)%Z ->
  (forall s, In s (summaries (effects (program w cli env))) ->
     map r_index (s_results s) = seq 0 (Z.to_nat N)
     /\ Z.of_nat (List.length (s_results s)) = N)
  /\ (writes_succeed w ->
      exists s, summaries (effects (program w cli env)) = [s]).
Proof.
  intros Hcfg HN Hpos.
  assert (Hlen : forall rs : list IterationResult,
             map r_index rs = seq 0 (Z.to_nat N) ->
             Z.of_nat (List.length rs) = N).
  { intros rs H. rewrite <- (length_map r_index), H, length_seq.
    apply Z2Nat.id. assumption. }
  destruct (program_cases w cli env Hcfg)
    as [[new [results [Hnew [Hidx [_ Hend]]]]]
       | [new [e [th [path [content [Hnew [Hw E]]]]]]]].
  - assert (Hs : summaries (effects (program w cli env)) =
                 [summary (config (argv cli env) env) (w_now w new) results]).
    { destruct Hend as [[_ E] | [e [_ E]]]; rewrite E; simpl;
        rewrite (summaries_iterations new _ Hnew); reflexivity. }
    rewrite Hs.
    change (NUM (config (argv cli env) env)) with (num (argv cli env)) in Hidx.
    rewrite HN in Hidx. split.
    + intros s [<- | []]. simpl. auto.
    + intros _. eauto.
  - rewrite E. simpl. rewrite (summaries_iterations new _ Hnew). split.
    + intros s [].
    + intros Hok. rewrite Hok in Hw. discriminate.
Qed.

(** The claim at work: three iterations against a node that rejects every
    funding transfer. *)
Lemma results_one_entry_per_iteration_witness :
  exists s,
    summaries (effects
      (program world_funding_rejected (cli_num_only 3) env_readme)) = [s]
    /\ map r_index (s_results s) = [0; 1; 2]
    /\ Z.of_nat (List.length (s_results s)) = 3%Z.
Proof.
  destruct (results_one_entry_per_iteration
              world_funding_rejected (cli_num_only 3) env_readme 3
              eq_refl eq_refl ltac:(lia))
    as [Hall Hwritten].
  destruct (Hwritten (fun _ _ _ => eq_refl)) as [s Hs].
  exists s. split; [exact Hs | ].
  apply Hall. rewrite Hs. left. reflexivity.
Defined.

(** What the catch block of the gas estimate does when the call that builds
    the fallback limit throws, as [ethers.BigInt] does in ethers 6, which has
    no such function: the attempt fails with the error of that call, and
    nothing has been submitted. *)
Lemma fallback_constructor_throws
    (w : World) (cfg : Config) (wallet : Wallet) (msg data : string)
    (t : Trace) (e e' : JsError) :
  w_encodeFunctionData w msg = Normal data ->
  w_estimateGas w t (estimate_request cfg wallet data) = Throw e ->
  w_BigInt w FALLBACK_GAS_LIMIT = Throw e' ->
  storeAttempt w cfg wallet msg t =
    (EvEstimateGas (estimate_request cfg wallet data) :: t, Throw e').
Proof.
  intros Hdata Hest Hbig.
  unfold storeAttempt, bind, try, lift, call, ret. rewrite Hdata.
  fold (estimate_request cfg wallet data). rewrite Hest, Hbig. reflexivity.
Qed.

(** C2 does not hold of the code.  One iteration against a node whose gas
    estimation fails and which would accept the transaction: the catch block
    calls [ethers.BigInt(300000)], which throws; no contract call is
    submitted, with the fallback limit or any other, and the error reaches
    [main] as a failure of the store step. *)
Theorem estimate_failure_fails_store_step :
  let out := farm_sequential world_estimate_fails (cli_num_only 1) env_readme in
  let results := List.concat (map s_results (summaries (effects out))) in
  count is_payload (effects out) = 0
  /\ map r_status results = ["fail"]
  /\ map r_step results = [Some "store"]
  /\ map r_error results
     = [Some "TypeError: ethers.BigInt is not a function"]
  /\ storeAttempt world_estimate_fails (cfg_readme (cli_num_only 1))
       (sample_wallet []) "Hello from farm! (#0)" []
     = ([EvEstimateGas
           (estimate_request (cfg_readme (cli_num_only 1)) (sample_wallet [])
              "0x32af2edbHello from farm! (#0)")],
        Throw (mkJsError "TypeError" "ethers.BigInt is not a function")).
Proof. vm_compute. repeat split. Qed.

(** C3, amended: when the network rejects every funding
    attempt, the retry policy makes three attempts (the first and two
    retries), calls the observation hook after each of the three failures,
    the last included, and propagates the third failure unchanged. *)
Theorem funding_retry_exhausted
    (w : World) (cfg : Config) (addr : string) (value : Z) (t : Trace)
    (e1 e2 e3 : JsError) :
  w_parseEther w (FUND_AMOUNT cfg) = Normal value ->
  w_sendTransaction w t (FUNDER_address w cfg) (funding_request addr value)
    = Throw e1 ->
  w_sendTransaction w (rejected_funding w cfg addr value e1 t)
    (FUNDER_address w cfg) (funding_request addr value) = Throw e2 ->
  w_sendTransaction w
    (rejected_funding w cfg addr value e2
       (rejected_funding w cfg addr value e1 t))
    (FUNDER_address w cfg) (funding_request addr value) = Throw e3 ->
  exists new,
    pRetry (fundWallet w cfg addr) 2 fundOnFailedAttempt t
      = ((new ++ t)%list, Throw e3)
    /\ (new ++ t)%list =
         rejected_funding w cfg addr value e3
           (rejected_funding w cfg addr value e2
              (rejected_funding w cfg addr value e1 t))
    /\ count is_submission new = 3
    /\ count is_hook_call new = 3.
Proof.
  intros Hvalue H1 H2 H3.
  exists [ EvConsoleWarn [LogStr "fundWallet attempt failed:"; message_or_self e3];
           EvSendTransaction (FUNDER_address w cfg) (funding_request addr value);
           EvConsoleWarn [LogStr "fundWallet attempt failed:"; message_or_self e2];
           EvSendTransaction (FUNDER_address w cfg) (funding_request addr value);
           EvConsoleWarn [LogStr "fundWallet attempt failed:"; message_or_self e1];
           EvSendTransaction (FUNDER_address w cfg) (funding_request addr value) ].
  split; [ | repeat split].
  unfold pRetry, bind, try, fundWallet, bind, lift, call, throw, ret,
    fundOnFailedAttempt, console_warn, call.
  rewrite Hvalue. fold (funding_request addr value).
  rewrite H1. unfold rejected_funding, FUNDER_address in *.
  rewrite H2. rewrite H3. reflexivity.
Qed.

(** The claim at work: a node that rejects every transfer of value. *)
Lemma funding_retry_exhausted_witness :
  exists new,
    pRetry (fundWallet world_funding_rejected (cfg_readme cli_none) "0xwallet0")
      2 fundOnFailedAttempt []
      = ((new ++ [])%list, Throw (Error "insufficient funds"))
    /\ (new ++ [])%list =
         rejected_funding world_funding_rejected (cfg_readme cli_none)
           "0xwallet0" 2000000000000 (Error "insufficient funds")
           (rejected_funding world_funding_rejected (cfg_readme cli_none)
              "0xwallet0" 2000000000000 (Error "insufficient funds")
              (rejected_funding world_funding_rejected (cfg_readme cli_none)
                 "0xwallet0" 2000000000000 (Error "insufficient funds") []))
    /\ count is_submission new = 3
    /\ count is_hook_call new = 3.
Proof.
  apply (funding_retry_exhausted world_funding_rejected (cfg_readme cli_none)
           "0xwallet0" 2000000000000 []
           (Error "insufficient funds") (Error "insufficient funds")
           (Error "insufficient funds")); reflexivity.
Defined.

(** C3 as stated fails: with every attempt rejected the hook is called three
    times, once per failed attempt, not twice. *)
Lemma funding_hook_not_called_twice :
  let run :=
    pRetry (fundWallet world_funding_rejected (cfg_readme cli_none) "0xwallet0")
      2 fundOnFailedAttempt [] in
  (count is_submission (fst run) = 3
   /\ count is_hook_call (fst run) = 3
   /\ snd run = Throw (Error "insufficient funds"))
  /\ ~ (count is_submission (fst run) = 3
        /\ count is_hook_call (fst run) = 2
        /\ snd run = Throw (Error "insufficient funds")).
Proof.
  split.
  - repeat split.
  - intros [_ [Hhook _]]. vm_compute in Hhook. discriminate Hhook.
Qed.




(** A funder key that is present and malformed: the wallet cannot be built,
    the exception is caught by nobody, and the process ends with status 1
    before [main] is called. *)
Example malformed_key_is_fatal :
  config_missing cli_none env_readme = false
  /\ farm_sequential world_malformed_key cli_none env_readme = uncaught.
Proof. split; reflexivity. Qed.

(** Every per-iteration error is absorbed: when no file write is refused, a
    configured process ends with status 0. *)
Corollary configured_run_exits_zero (w : World) (cli : Cli) (env : Env) :
  config_missing cli env = false -> writes_succeed w ->
  exit_status (program w cli env) = 0%Z.
Proof.
  intros Hcfg Hok.
  destruct (program_cases w cli env Hcfg)
    as [[new [results [_ [_ [_ [[_ E] | [e [Hw _]]]]]]]]
       | [new [e [th [path [content [_ [Hw _]]]]]]]].
  - rewrite E. reflexivity.
  - rewrite Hok in Hw. discriminate.
  - rewrite Hok in Hw. discriminate.
Qed.

(** ** Deterministic mode without a seed phrase *)

Lemma repeat_shift {A} (x : A) (n : nat) (l : list A) :
  (repeat x n ++ x :: l)%list = x :: (repeat x n ++ l)%list.
Proof.
  induction n as [| n IH]; simpl; [reflexivity | ]. rewrite IH. reflexivity.
Qed.

Section MissingSeed.

Variable w : World.
Variable cfg : Config.
Hypothesis Hhd : USE_HD cfg = true.
Hypothesis Hseed : MNEMONIC cfg = None.

Lemma iteration_missing_seed (i : nat) (results : list IterationResult)
    (saved : list SavedWallet) (t : Trace) :
  iteration w cfg i (results, saved) t =
    (missing_seed_line :: t,
     Normal (push results
               (create_failure i
                  (Error "MNEMONIC required when --useHd is set.")),
             saved)).
Proof.
  unfold iteration, createWallet. rewrite Hhd, Hseed. reflexivity.
Qed.

Lemma loop_missing_seed (n i : nat) (results : list IterationResult)
    (saved : list SavedWallet) (t : Trace) :
  loop w cfg n i (results, saved) t =
    ((repeat missing_seed_line n ++ t)%list,
     Normal ((results ++
              map (fun i => create_failure i
                     (Error "MNEMONIC required when --useHd is set."))
                  (seq i n))%list,
             saved)).
Proof.
  revert i results t. induction n as [| n IH]; intros i results t.
  - simpl. rewrite app_nil_r. reflexivity.
  - rewrite loop_S. unfold bind. rewrite iteration_missing_seed, IH.
    rewrite repeat_shift. unfold push. rewrite <- app_assoc. reflexivity.
Qed.

End MissingSeed.

(** C5, amended: in deterministic mode without a seed phrase
    nothing is checked before the run.  Each of the N iterations fails to
    create its wallet, tells the operator so and records a failure of the
    create step; nothing is funded or submitted, the summary of the N
    failures is written, and the process ends with status 0 when that write
    succeeds. *)
Theorem missing_seed_fails_each_iteration
    (w : World) (cli : Cli) (env : Env) :
  config_missing cli env = false ->
  useHd (argv cli env) = true ->
  missing (env_MNEMONIC env) = true ->
  let cfg := config (argv cli env) env in
  let n := Z.to_nat (NUM cfg) in
  let lines := repeat missing_seed_line n in
  let s :=
    summary cfg (w_now w lines)
      (map (fun i => create_failure i
              (Error "MNEMONIC required when --useHd is set."))
           (seq 0 n)) in
  fst (main w cfg []) = EvWriteFile "farm-results.json" (ResultsJson s) :: lines
  /\ (w_writeFileSync w lines "farm-results.json" (ResultsJson s) = Normal tt ->
      program w cli env =
        {| exit_status := 0;
           effects := EvWriteFile "farm-results.json" (ResultsJson s) :: lines |}).
Proof.
  intros Hcfg Hhd Hseed cfg n lines s.
  assert (Hmain : main w cfg [] =
            (EvWriteFile "farm-results.json" (ResultsJson s) :: lines,
             w_writeFileSync w lines "farm-results.json" (ResultsJson s))).
  { unfold main, bind.
    rewrite (loop_missing_seed w cfg Hhd); [ | unfold cfg; simpl; rewrite Hseed; reflexivity].
    rewrite app_nil_r. reflexivity. }
  split.
  - rewrite Hmain. reflexivity.
  - intros Hw. rewrite (program_configured w cli env Hcfg). fold cfg.
    rewrite Hmain, Hw. reflexivity.
Qed.

(** The claim at work: [--useHd --num 2] with the environment of the README,
    which has no mnemonic. *)
Lemma missing_seed_fails_each_iteration_witness :
  let w := world_ok in
  let cfg := config (argv (cli_hd 2) env_readme) env_readme in
  let lines := [missing_seed_line; missing_seed_line] in
  let s :=
    summary cfg (w_now w lines)
      (map (fun i => create_failure i
              (Error "MNEMONIC required when --useHd is set."))
           [0; 1]) in
  fst (main w cfg []) = EvWriteFile "farm-results.json" (ResultsJson s) :: lines
  /\ (w_writeFileSync w lines "farm-results.json" (ResultsJson s) = Normal tt ->
      program w (cli_hd 2) env_readme =
        {| exit_status := 0;
           effects := EvWriteFile "farm-results.json" (ResultsJson s) :: lines |}).
Proof.
  apply (missing_seed_fails_each_iteration world_ok (cli_hd 2) env_readme);
    reflexivity.
Defined.

(** C5 as stated fails: [--useHd --num 2] without a mnemonic does not abort
    before the first iteration and does not exit non-zero: both iterations
    run, the summary records them and the status is 0. *)
Lemma missing_seed_is_not_fatal :
  let out := program world_ok (cli_hd 2) env_readme in
  let results := List.concat (map s_results (summaries (effects out))) in
  useHd (argv (cli_hd 2) env_readme) = true
  /\ missing (env_MNEMONIC env_readme) = true
  /\ exit_status out = 0%Z
  /\ map r_step results = [Some "create"; Some "create"]
  /\ ~ (exit_status out <> 0%Z /\ results = []).
Proof.
  vm_compute. repeat split. intros [Hexit _]. apply Hexit. reflexivity.
Qed.

(** ** The failure paths of an iteration *)

Lemma count_none (p : Event -> bool) (l : Trace) :
  Forall (fun ev => p ev = false) l -> count p l = 0.
Proof.
  unfold count. induction 1 as [| ev l Hev _ IH]; simpl; [reflexivity | ].
  rewrite Hev. assumption.
Qed.

Lemma createWallet_emits_no_sleep (w : World) (cfg : Config) (i : nat) :
  emits (fun ev => is_sleep ev = false) (createWallet w cfg i).
Proof. unfold createWallet. repeat emits_step. Qed.

Lemma funding_emits_no_sleep (w : World) (cfg : Config) (addr : string) :
  emits (fun ev => is_sleep ev = false)
    (pRetry (fundWallet w cfg addr) 2 fundOnFailedAttempt).
Proof.
  unfold fundWallet, fundOnFailedAttempt, console_warn. repeat emits_step.
Qed.

(** C6: when funding succeeds and the payload submission fails, the
    iteration records a failure of the store step with the address and
    without a transaction hash, then waits the full rate delay; the next
    iteration starts after that wait. *)
Theorem store_failure_recorded_and_paced
    (w : World) (cfg : Config) (i : nat) (results : list IterationResult)
    (saved : list SavedWallet) (t t1 t3 t4 : Trace) (wallet : Wallet)
    (fundRes : string) (err : JsError) :
  createWallet w cfg i t = (t1, Normal wallet) ->
  ledger_saved w cfg i wallet saved t1 ->
  pRetry (fundWallet w cfg (address wallet)) 2 fundOnFailedAttempt
    (history_after_save cfg i wallet saved t1) = (t3, Normal fundRes) ->
  sendStoreMessageTx w cfg wallet
    (MESSAGE_BASE cfg ++ " (#" ++ string_of_index i ++ ")")
    (EvSleep 1000 :: t3) = (t4, Throw err) ->
  let t' :=
    EvSleep (RATE_SECONDS cfg * 1000)
    :: EvConsoleError
         [LogStr ("storeMessage failed for " ++ address wallet ++ ":");
          message_or_self err]
    :: t4 in
  let arrays' :=
    (push results (store_failure i wallet err),
     ledger_after cfg i wallet saved) in
  iteration w cfg i (results, saved) t = (t', Normal arrays')
  /\ r_status (store_failure i wallet err) = "fail"
  /\ r_step (store_failure i wallet err) = Some "store"
  /\ r_txHash (store_failure i wallet err) = None
  /\ r_index (store_failure i wallet err) = i
  /\ forall n, loop w cfg (S n) i (results, saved) t
               = loop w cfg n (S i) arrays' t'.
Proof.
  intros Hcreate Hsave Hfund Hstore t' arrays'.
  assert (Hit : iteration w cfg i (results, saved) t = (t', Normal arrays')).
  { unfold iteration, bind, try. rewrite Hcreate.
    unfold ledger_saved, history_after_save, ledger_after, ledger_entry in *.
    subst t' arrays'.
    destruct (SAVE_WALLETS cfg).
    - unfold writeFileSync, call, bind, ret. rewrite (Hsave eq_refl).
      rewrite Hfund. unfold sleep, call. rewrite Hstore. reflexivity.
    - unfold ret at 1. rewrite Hfund. unfold sleep, call. rewrite Hstore.
      reflexivity. }
  repeat split; [exact Hit | ].
  intros n. rewrite loop_S. unfold bind. rewrite Hit. reflexivity.
Qed.

(** The claim at work: the first iteration against a node that accepts the
    funding transfer and rejects every contract call. *)
Lemma store_failure_recorded_and_paced_witness :
  let w := world_store_rejected in
  let cfg := cfg_readme (cli_num_only 1) in
  let wallet := sample_wallet [] in
  let err := Error "nonce too low" in
  let t3 :=
    fst (pRetry (fundWallet w cfg (address wallet)) 2 fundOnFailedAttempt
           (history_after_save cfg 0 wallet [] [EvCreateRandom])) in
  let t4 :=
    fst (sendStoreMessageTx w cfg wallet "Hello from farm! (#0)"
           (EvSleep 1000 :: t3)) in
  let t' :=
    EvSleep 2000
    :: EvConsoleError
         [LogStr "storeMessage failed for 0xwallet0:"; LogStr "nonce too low"]
    :: t4 in
  let arrays' := ([store_failure 0 wallet err], [ledger_entry 0 wallet]) in
  iteration w cfg 0 ([], []) [] = (t', Normal arrays')
  /\ r_status (store_failure 0 wallet err) = "fail"
  /\ r_step (store_failure 0 wallet err) = Some "store"
  /\ r_txHash (store_failure 0 wallet err) = None
  /\ r_index (store_failure 0 wallet err) = 0
  /\ forall n, loop w cfg (S n) 0 ([], []) [] = loop w cfg n 1 arrays' t'.
Proof.
  intros w cfg wallet err t3 t4 t' arrays'.
  apply (store_failure_recorded_and_paced w cfg 0 [] [] []
           [EvCreateRandom] t3 t4 wallet "receipt of 0xtx2" err).
  - reflexivity.
  - intros _. reflexivity.
  - reflexivity.
  - reflexivity.
Defined.

(** C7: when funding fails after the retries, the iteration records a
    failure of the fund step with the address and goes on to the next
    iteration at once: it has slept neither the settle delay nor the rate
    delay. *)
Theorem funding_failure_recorded_without_delay
    (w : World) (cfg : Config) (i : nat) (results : list IterationResult)
    (saved : list SavedWallet) (t t1 t3 : Trace) (wallet : Wallet)
    (err : JsError) :
  createWallet w cfg i t = (t1, Normal wallet) ->
  ledger_saved w cfg i wallet saved t1 ->
  pRetry (fundWallet w cfg (address wallet)) 2 fundOnFailedAttempt
    (history_after_save cfg i wallet saved t1) = (t3, Throw err) ->
  let t' :=
    EvConsoleError
      [LogStr ("Funding failed for " ++ address wallet ++ ":");
       message_or_self err]
    :: t3 in
  let arrays' :=
    (push results (fund_failure i wallet err),
     ledger_after cfg i wallet saved) in
  iteration w cfg i (results, saved) t = (t', Normal arrays')
  /\ r_status (fund_failure i wallet err) = "fail"
  /\ r_step (fund_failure i wallet err) = Some "fund"
  /\ r_index (fund_failure i wallet err) = i
  /\ (exists new, t' = (new ++ t)%list /\ count is_sleep new = 0)
  /\ forall n, loop w cfg (S n) i (results, saved) t
               = loop w cfg n (S i) arrays' t'.
Proof.
  intros Hcreate Hsave Hfund t' arrays'.
  assert (Hit : iteration w cfg i (results, saved) t = (t', Normal arrays')).
  { unfold iteration, bind, try. rewrite Hcreate.
    unfold ledger_saved, history_after_save, ledger_after, ledger_entry in *.
    subst t' arrays'.
    destruct (SAVE_WALLETS cfg).
    - unfold writeFileSync, call, bind, ret. rewrite (Hsave eq_refl).
      rewrite Hfund. reflexivity.
    - unfold ret at 1. rewrite Hfund. reflexivity. }
  split; [exact Hit | ]. do 3 (split; [reflexivity | ]). split.
  - destruct (emits_run _ _ _ _ _ (createWallet_emits_no_sleep w cfg i) Hcreate)
      as [n1 [-> F1]].
    destruct (emits_run _ _ _ _ _
                (funding_emits_no_sleep w cfg (address wallet)) Hfund)
      as [n3 [E3 F3]].
    subst t'. rewrite E3. unfold history_after_save.
    destruct (SAVE_WALLETS cfg).
    + eexists (_ :: n3 ++ _ :: n1)%list. split.
      * simpl. rewrite <- app_assoc. reflexivity.
      * apply count_none. constructor; [reflexivity | ].
        apply Forall_app. split; [assumption | ].
        constructor; [reflexivity | assumption].
    + eexists (_ :: n3 ++ n1)%list. split.
      * simpl. rewrite <- app_assoc. reflexivity.
      * apply count_none. constructor; [reflexivity | ].
        apply Forall_app. split; assumption.
  - intros n. rewrite loop_S. unfold bind. rewrite Hit. reflexivity.
Qed.

(** The claim at work: the first iteration against a node that rejects every
    funding transfer. *)
Lemma funding_failure_recorded_without_delay_witness :
  let w := world_funding_rejected in
  let cfg := cfg_readme (cli_num_only 1) in
  let wallet := sample_wallet [] in
  let err := Error "insufficient funds" in
  let t3 :=
    fst (pRetry (fundWallet w cfg (address wallet)) 2 fundOnFailedAttempt
           (history_after_save cfg 0 wallet [] [EvCreateRandom])) in
  let t' :=
    EvConsoleError
      [LogStr "Funding failed for 0xwallet0:"; LogStr "insufficient funds"]
    :: t3 in
  let arrays' := ([fund_failure 0 wallet err], [ledger_entry 0 wallet]) in
  iteration w cfg 0 ([], []) [] = (t', Normal arrays')
  /\ r_status (fund_failure 0 wallet err) = "fail"
  /\ r_step (fund_failure 0 wallet err) = Some "fund"
  /\ r_index (fund_failure 0 wallet err) = 0
  /\ (exists new, t' = (new ++ [])%list /\ count is_sleep new = 0)
  /\ forall n, loop w cfg (S n) 0 ([], []) [] = loop w cfg n 1 arrays' t'.
Proof.
  intros w cfg wallet err t3 t' arrays'.
  apply (funding_failure_recorded_without_delay w cfg 0 [] [] []
           [EvCreateRandom] t3 wallet err).
  - reflexivity.
  - intros _. reflexivity.
  - reflexivity.
Defined.

(** ** Pacing *)

Lemma iteration_sleep_floor (cfg : Config) (ms : Z) (new : Trace) :
  (1 <= RATE_SECONDS cfg)%Z ->
  Forall (fun ev => iteration_event cfg ev = true) new ->
  In (EvSleep ms) new -> (1000 <= ms)%Z.
Proof.
  intros Hrate Hnew Hin. rewrite Forall_forall in Hnew.
  specialize (Hnew _ Hin). simpl in Hnew.
  apply orb_true_iff in Hnew. destruct Hnew as [H | H];
    apply Z.eqb_eq in H; lia.
Qed.

(** C8: whatever rate is configured, the rate delay in effect is at least
    one second: a value below 1 (0, say) becomes 1, a value of at least 1 is
    kept, and without the option it is 2; and no pause of a run is shorter
    than 1000 ms. *)
Theorem rate_delay_floor (w : World) (cli : Cli) (env : Env) :
  let cfg := config (argv cli env) env in
  (1 <= RATE_SECONDS cfg)%Z
  /\ (forall r, cli_rate cli = Some r -> (r < 1)%Z -> RATE_SECONDS cfg = 1%Z)
  /\ (forall r, cli_rate cli = Some r -> (1 <= r)%Z -> RATE_SECONDS cfg = r)
  /\ (cli_rate cli = None -> RATE_SECONDS cfg = 2%Z)
  /\ (forall ms, In (EvSleep ms) (effects (program w cli env)) ->
                 (1000 <= ms)%Z).
Proof.
  intros cfg.
  assert (Hrate : (1 <= RATE_SECONDS cfg)%Z) by (simpl; lia).
  split; [exact Hrate | ].
  split; [intros r Hr Hlt; simpl; rewrite Hr; simpl; lia | ].
  split; [intros r Hr Hle; simpl; rewrite Hr; simpl; lia | ].
  split; [intros Hr; simpl; rewrite Hr; reflexivity | ].
  intros ms Hin.
  destruct (config_missing cli env) eqn:Hcfg.
  - destruct (program_unconfigured w cli env Hcfg) as [line E].
    rewrite E in Hin. simpl in Hin. destruct Hin as [H | []]. discriminate.
  - destruct (program_cases w cli env Hcfg)
      as [[new [results [Hnew [_ [_ [[_ E] | [e [_ E]]]]]]]]
         | [new [e [th [path [content [Hnew [_ E]]]]]]]];
      rewrite E in Hin; simpl in Hin;
      repeat (destruct Hin as [Hin | Hin]; [discriminate | ]);
      exact (iteration_sleep_floor cfg ms new Hrate Hnew Hin).
Qed.

(** The claim at work: [--rate 0]. *)
Lemma rate_delay_floor_witness :
  RATE_SECONDS (config (argv (cli_num_rate 1 0) env_readme) env_readme) = 1%Z.
Proof.
  apply (proj1 (proj2 (rate_delay_floor world_ok (cli_num_rate 1 0) env_readme))
           0%Z).
  - reflexivity.
  - reflexivity.
Defined.

(** The rate delay of [--rate 0] is one second, and the pauses of a run with
    it are the settle delay and that second. *)
Example rate_zero_is_one_second :
  RATE_SECONDS (cfg_readme (cli_num_rate 1 0)) = 1%Z
  /\ filter is_sleep (effects (program world_ok (cli_num_rate 1 0) env_readme))
     = [EvSleep 1000; EvSleep 1000].
Proof. split; reflexivity. Qed.

(** C9: with N = 0 the only thing the run does is hand the summary, with an
    empty results sequence, to the file system, once: no wallet is created,
    no ledger is written, nothing is funded or submitted; the process ends
    with status 0 when that write succeeds. *)
Theorem zero_iterations_write_summary (w : World) (cli : Cli) (env : Env) :
  config_missing cli env = false ->
  num (argv cli env) = 0%Z ->
  let cfg := config (argv cli env) env in
  let s := summary cfg (w_now w []) [] in
  let ev := EvWriteFile "farm-results.json" (ResultsJson s) in
  fst (main w cfg []) = [ev]
  /\ s_results s = []
  /\ (w_writeFileSync w [] "farm-results.json" (ResultsJson s) = Normal tt ->
      program w cli env = {| exit_status := 0; effects := [ev] |}).
Proof.
  intros Hcfg HN cfg s ev.
  assert (Hmain : main w cfg [] =
            ([ev], w_writeFileSync w [] "farm-results.json" (ResultsJson s))).
  { unfold main, bind.
    change (NUM cfg) with (num (argv cli env)). rewrite HN. reflexivity. }
  split; [rewrite Hmain; reflexivity | ]. split; [reflexivity | ].
  intros Hw. rewrite (program_configured w cli env Hcfg). fold cfg.
  rewrite Hmain, Hw. reflexivity.
Qed.

(** The claim at work: [--num 0] with the environment of the README. *)
Lemma zero_iterations_write_summary_witness :
  let w := world_ok in
  let cfg := config (argv (cli_num_only 0) env_readme) env_readme in
  let s := summary cfg (w_now w []) [] in
  let ev := EvWriteFile "farm-results.json" (ResultsJson s) in
  fst (main w cfg []) = [ev]
  /\ s_results s = []
  /\ (w_writeFileSync w [] "farm-results.json" (ResultsJson s) = Normal tt ->
      program w (cli_num_only 0) env_readme
        = {| exit_status := 0; effects := [ev] |}).
Proof.
  apply (zero_iterations_write_summary world_ok (cli_num_only 0) env_readme);
    reflexivity.
Defined.

(** C10: every entry pushed to [results] satisfies the field correspondence:
    its status is "ok" exactly when it carries a transaction hash and neither
    step nor error, "fail" exactly when it carries a step among create, fund
    and store and an error string; and it carries an address exactly when
    the wallet of its iteration was created, that is unless its step is
    create.  So do all the entries of a summary handed to the file system. *)
Theorem results_field_correspondence (w : World) :
  (forall (cfg : Config) (i : nat) (results results' : list IterationResult)
          (saved saved' : list SavedWallet) (t t' : Trace),
      iteration w cfg i (results, saved) t = (t', Normal (results', saved')) ->
      exists r,
        results' = push results r
        /\ field_correspondence r
        /\ (is_some (r_address r) = true <->
            exists t1 wallet, createWallet w cfg i t = (t1, Normal wallet)))
  /\ (forall (cli : Cli) (env : Env) (s : Summary),
         In s (summaries (effects (program w cli env))) ->
         Forall field_correspondence (s_results s)).
Proof.
  split.
  - intros cfg i results results' saved saved' t t' E.
    pose proof (iteration_cases w cfg i results saved t) as H.
    rewrite E in H. destruct H as [r [-> [_ [Hr Haddr]]]].
    exists r. split; [reflexivity | ]. split; [exact Hr | ].
    destruct (createWallet w cfg i t) as [t1 [wallet | e]].
    + split; [eauto | intros _].
      destruct (is_some (r_address r)); [reflexivity | ].
      destruct (proj1 Haddr eq_refl) as [? [? Habs]]. discriminate Habs.
    + split.
      * intros Hsome. rewrite (proj2 Haddr) in Hsome by eauto. discriminate.
      * intros [? [? Habs]]. discriminate Habs.
  - intros cli env s Hin.
    destruct (config_missing cli env) eqn:Hcfg.
    + destruct (program_unconfigured w cli env Hcfg) as [line E].
      rewrite E in Hin. destruct Hin.
    + destruct (program_cases w cli env Hcfg)
        as [[new [results [Hnew [_ [Hwf [[_ E] | [e [_ E]]]]]]]]
           | [new [e [th [path [content [Hnew [_ E]]]]]]]];
        rewrite E in Hin; simpl in Hin;
        rewrite (summaries_iterations new _ Hnew) in Hin.
      * destruct Hin as [<- | []]. exact Hwf.
      * destruct Hin as [<- | []]. exact Hwf.
      * destruct Hin.
Qed.

(** The claim at work: the first iteration against a node that accepts
    everything pushes an entry with status "ok". *)
Lemma results_field_correspondence_witness :
  exists r,
    snd (iteration world_ok (cfg_readme (cli_num_only 1)) 0 ([], []) [])
      = Normal ([r], [ledger_entry 0 (sample_wallet [])])
    /\ r_status r = "ok"
    /\ field_correspondence r.
Proof.
  destruct (proj1 (results_field_correspondence world_ok)
              (cfg_readme (cli_num_only 1)) 0 [] _ [] _ [] _ eq_refl)
    as [r [Hr [Hfields _]]].
  exists r. split; [ | split; [ | exact Hfields]].
  - inversion Hr. reflexivity.
  - inversion Hr. reflexivity.
Defined.

(** ** Runs *)

Example String_of_new_Error :
  String_of_error (Error "insufficient funds") = "Error: insufficient funds".
Proof. reflexivity. Qed.

(** Three wallets at one per second against a node that accepts everything:
    three successes at distinct addresses, and six pauses of one second. *)
Example three_wallets_succeed :
  let out := program world_ok (cli_num_rate 3 1) env_readme in
  let results := List.concat (map s_results (summaries (effects out))) in
  exit_status out = 0%Z
  /\ map r_index results = [0; 1; 2]
  /\ map r_status results = ["ok"; "ok"; "ok"]
  /\ NoDup (map r_address results)
  /\ filter is_sleep (effects out) = repeat (EvSleep 1000) 6.
Proof.
  vm_compute. repeat split.
  repeat constructor; simpl; intuition discriminate.
Qed.

(** A funding transfer rejected three times is one entry of the summary, and
    the run goes on. *)
Example funding_rejected_run :
  let out := program world_funding_rejected (cli_num_only 2) env_readme in
  let results := List.concat (map s_results (summaries (effects out))) in
  exit_status out = 0%Z
  /\ map r_step results = [Some "fund"; Some "fund"]
  /\ count is_submission (effects out) = 6
  /\ count is_hook_call (effects out) = 6
  /\ count is_sleep (effects out) = 0.
Proof. vm_compute. repeat split. Qed.

(** * Further properties *)

(** ** Indices in messages and derivation paths *)

Lemma string_of_index_injective (i j : nat) :
  string_of_index i = string_of_index j -> i = j.
Proof.
  unfold string_of_index. intros H.
  apply (f_equal NilEmpty.uint_of_string) in H.
  rewrite !NilEmpty.usu in H. injection H as H.
  apply (f_equal Nat.of_uint) in H. rewrite !Unsigned.of_to in H. exact H.
Qed.

Lemma length_append (a b : string) :
  String.length (a ++ b) = String.length a + String.length b.
Proof. induction a as [| c a IH]; simpl; [reflexivity | rewrite IH; reflexivity]. Qed.

Lemma append_cancel_l (p a b : string) : p ++ a = p ++ b -> a = b.
Proof.
  induction p as [| c p IH]; simpl; intros H; [exact H | ].
  injection H as H. auto.
Qed.

Lemma append_cancel_r (a b s : string) : a ++ s = b ++ s -> a = b.
Proof.
  revert b. induction a as [| c a IH]; intros [| d b] H; simpl in H.
  - reflexivity.
  - apply (f_equal String.length) in H. simpl in H.
    rewrite length_append in H. lia.
  - apply (f_equal String.length) in H. simpl in H.
    rewrite length_append in H. lia.
  - injection H as -> H. f_equal. auto.
Qed.

(** The index is written into the stored message and into the derivation
    path in a way that can be read back: two iterations never store the
    same message, nor derive their wallets at the same path. *)
Theorem iteration_labels_distinct (cfg : Config) (i j : nat) :
  i <> j ->
  store_message cfg i <> store_message cfg j /\ hd_path i <> hd_path j.
Proof.
  intros Hij. unfold store_message, hd_path. split; intros H; apply Hij.
  - apply append_cancel_l in H. apply (append_cancel_l " (#") in H.
    apply append_cancel_r in H. apply string_of_index_injective. exact H.
  - apply append_cancel_l in H. apply string_of_index_injective. exact H.
Qed.

Lemma iteration_labels_distinct_witness :
  store_message (cfg_readme cli_none) 9 <> store_message (cfg_readme cli_none) 10
  /\ hd_path 9 <> hd_path 10.
Proof.
  apply (iteration_labels_distinct (cfg_readme cli_none) 9 10). discriminate.
Defined.

(** ** The paths through an iteration *)

Section Paths.

Variable w : World.
Variable cfg : Config.

(** The ledger step on its own: the write is refused, or the history and the
    ledger advance as [history_after_save] and [ledger_after] say. *)
Lemma save_step (i : nat) (wallet : Wallet) (saved : list SavedWallet)
    (t1 : Trace) :
  let step : M (list SavedWallet) :=
    if SAVE_WALLETS cfg then
      bind (writeFileSync w "wallets.json"
              (WalletsJson (push saved (ledger_entry i wallet))))
           (fun _ => ret (push saved (ledger_entry i wallet)))
    else ret saved in
  (exists err,
      SAVE_WALLETS cfg = true
      /\ w_writeFileSync w t1 "wallets.json"
           (WalletsJson (push saved (ledger_entry i wallet))) = Throw err
      /\ step t1 = (history_after_save cfg i wallet saved t1, Throw err))
  \/ (ledger_saved w cfg i wallet saved t1
      /\ step t1 = (history_after_save cfg i wallet saved t1,
                    Normal (ledger_after cfg i wallet saved))).
Proof.
  unfold ledger_saved, history_after_save, ledger_after.
  destruct (SAVE_WALLETS cfg); cbv zeta.
  - unfold writeFileSync, call, bind, ret.
    destruct (w_writeFileSync w t1 "wallets.json"
                (WalletsJson (push saved (ledger_entry i wallet))))
      as [[] | err] eqn:Hw.
    + right. split; [reflexivity | reflexivity].
    + left. exists err. auto.
  - right. split; [discriminate | reflexivity].
Qed.

(** Every run of the body of the loop follows one of the five paths. *)
Lemma iteration_path_of (i : nat) (results : list IterationResult)
    (saved : list SavedWallet) (t : Trace) :
  iteration_path w cfg i results saved t
    (iteration w cfg i (results, saved) t).
Proof.
  unfold iteration. unfold bind at 1. unfold try at 1.
  destruct (createWallet w cfg i t) as [t1 [wallet | err]] eqn:Hcreate.
  - unfold bind at 1.
    destruct (save_step i wallet saved t1)
      as [[err [Hs [Hw Hstep]]] | [Hsaved Hstep]];
      cbv zeta in Hstep; unfold ledger_entry in Hstep; rewrite Hstep.
    + eapply path_ledger_refused; eassumption.
    + unfold bind at 1. unfold try at 1.
      destruct (pRetry (fundWallet w cfg (address wallet)) 2
                  fundOnFailedAttempt
                  (history_after_save cfg i wallet saved t1))
        as [t3 [fundRes | err]] eqn:Hfund.
      * unfold sleep, call, bind, try, ret, console_error. cbv beta iota zeta.
        fold (store_message cfg i).
        destruct (sendStoreMessageTx w cfg wallet (store_message cfg i)
                    (EvSleep 1000 :: t3))
          as [t4 [sendRes | err]] eqn:Hstore; cbv beta iota zeta.
        -- eapply path_stored; eassumption.
        -- eapply path_store_failed; eassumption.
      * unfold console_error, call, bind, ret. cbv beta iota zeta.
        eapply path_fund_failed; eassumption.
  - unfold console_error, call, bind, ret. cbv beta iota zeta.
    eapply path_create_failed; eassumption.
Qed.

End Paths.

(** ** What each step adds to the history *)

Lemma emits_bind_lift {A B} (P : Event -> Prop) (c : Completion A)
    (k : A -> M B) :
  (forall a, c = Normal a -> emits P (k a)) -> emits P (bind (lift c) k).
Proof.
  intros Hk t. unfold bind, lift. destruct c as [a | e].
  - apply (Hk a eq_refl).
  - exists []. split; [reflexivity | constructor].
Qed.

Lemma pRetry_success {A} (input : M A) (hook : JsError -> M unit)
    (retries : nat) (t t' : Trace) (a : A) :
  pRetry input retries hook t = (t', Normal a) ->
  exists t0, input t0 = (t', Normal a).
Proof.
  revert t. induction retries as [| n IH]; intros t; simpl;
    unfold bind, try, ret, throw;
    destruct (input t) as [t1 [a1 | e1]] eqn:Hin.
  - intros H. injection H as <- <-. eauto.
  - destruct (hook e1 t1) as [t2 [[] | e2]]; discriminate.
  - intros H. injection H as <- <-. eauto.
  - destruct (hook e1 t1) as [t2 [[] | e2]]; [apply IH | discriminate].
Qed.

Section Steps.

Variable w : World.
Variable cfg : Config.

(** Creating a wallet calls the random generator, in random mode only. *)
Lemma createWallet_emits (i : nat) :
  emits (fun ev => USE_HD cfg = false /\ ev = EvCreateRandom)
    (createWallet w cfg i).
Proof.
  unfold createWallet. destruct (USE_HD cfg); repeat emits_step.
  split; reflexivity.
Qed.

Lemma funding_emits (addr : string) :
  emits (fund_event w cfg addr)
    (pRetry (fundWallet w cfg addr) 2 fundOnFailedAttempt).
Proof.
  apply emits_pRetry.
  - unfold fundWallet. apply emits_bind_lift. intros value Hvalue.
    apply emits_bind; [ | intros tx].
    + apply emits_call. left. exists value. split; [exact Hvalue | reflexivity].
    + apply emits_call. right. left. eauto.
  - intros e. apply emits_call. right. right. eauto.
Qed.

Lemma storeAttempt_emits (wallet : Wallet) (msg : string) :
  emits (store_event cfg wallet)
    (pRetry (storeAttempt w cfg wallet msg) 2 storeOnFailedAttempt).
Proof.
  apply emits_pRetry.
  - unfold storeAttempt. apply emits_bind; [apply emits_lift | intros data].
    apply emits_bind; [ | intros estimate].
    + apply emits_try, emits_call. left. exists data. reflexivity.
    + apply emits_bind; [destruct estimate; [apply emits_ret | apply emits_lift] | ].
      intros gasLimit. apply emits_bind; [ | intros tx].
      * apply emits_call. right. left. exists data, gasLimit. reflexivity.
      * apply emits_bind; [ | intros rcpt; apply emits_ret].
        apply emits_call. right. right. left. eauto.
  - intros e. apply emits_call. right. right. right. eauto.
Qed.

(** The payload step opens with the balance query; the rest is what the
    retried submission adds. *)
Lemma sendStoreMessageTx_history (wallet : Wallet) (msg : string)
    (t t' : Trace) (c : Completion SendResult) :
  sendStoreMessageTx w cfg wallet msg t = (t', c) ->
  exists new,
    t' = (new ++ EvGetBalance (address wallet) :: t)%list
    /\ Forall (store_event cfg wallet) new.
Proof.
  unfold sendStoreMessageTx, bind, call.
  destruct (w_getBalance w t (address wallet)) as [balance | e].
  - intros H. exact (emits_run _ _ _ _ _ (storeAttempt_emits wallet msg) H).
  - intros H. injection H as <- <-. exists []. split; [reflexivity | constructor].
Qed.

(** A funding that succeeds ends on the confirmation of a transfer. *)
Lemma funding_success_confirmed (addr : string) (t t' : Trace)
    (fundRes : string) :
  pRetry (fundWallet w cfg addr) 2 fundOnFailedAttempt t = (t', Normal fundRes) ->
  exists hash rest, t' = EvWait hash :: rest.
Proof.
  intros H. apply pRetry_success in H. destruct H as [t0 H].
  unfold fundWallet, bind, lift, call in H.
  destruct (w_parseEther w (FUND_AMOUNT cfg)) as [value | e]; [ | discriminate].
  destruct (w_sendTransaction w t0 _ _) as [tx | e]; [ | discriminate].
  injection H as <- _. eauto.
Qed.

End Steps.

(** ** Invariants of the loop *)

Section LoopInvariant.

Variable w : World.
Variable cfg : Config.

(** [Inv i results savedWallets history] holds when iteration [i] starts;
    [Cut k history] holds when a ledger write that threw has cut the run
    short during iteration [k - 1]. *)
Variable Inv : nat -> list IterationResult -> list SavedWallet -> Trace -> Prop.
Variable Cut : nat -> Trace -> Prop.

Hypothesis step :
  forall i results saved t out,
    Inv i results saved t ->
    iteration_path w cfg i results saved t out ->
    match out with
    | (t', Normal (results', saved')) => Inv (S i) results' saved' t'
    | (t', Throw _) => Cut (S i) t'
    end.

Lemma loop_invariant (n i : nat) (results : list IterationResult)
    (saved : list SavedWallet) (t : Trace) :
  Inv i results saved t ->
  match loop w cfg n i (results, saved) t with
  | (t', Normal (results', saved')) => Inv (n + i) results' saved' t'
  | (t', Throw _) => exists k, i < k <= n + i /\ Cut k t'
  end.
Proof.
  revert i results saved t.
  induction n as [| n IH]; intros i results saved t HI.
  - exact HI.
  - rewrite loop_S. unfold bind.
    pose proof (step i results saved t _ HI
                  (iteration_path_of w cfg i results saved t)) as Hstep.
    destruct (iteration w cfg i (results, saved) t)
      as [t1 [[results1 saved1] | e]].
    + specialize (IH (S i) results1 saved1 t1 Hstep).
      destruct (loop w cfg n (S i) (results1, saved1) t1)
        as [t2 [[results2 saved2] | e]].
      * replace (S n + i) with (n + S i) by lia. exact IH.
      * destruct IH as [k [Hk HC]]. exists k. split; [lia | exact HC].
    + exists (S i). split; [lia | exact Hstep].
Qed.

End LoopInvariant.

(** [main] in terms of the loop. *)
Lemma main_by_loop (w : World) (cfg : Config) :
  main w cfg [] =
    match loop w cfg (Z.to_nat (NUM cfg)) 0 ([], []) [] with
    | (t, Normal (results, _)) =>
        (EvWriteFile "farm-results.json"
           (ResultsJson (summary cfg (w_now w t) results)) :: t,
         w_writeFileSync w t "farm-results.json"
           (ResultsJson (summary cfg (w_now w t) results)))
    | (t, Throw e) => (t, Throw e)
    end.
Proof.
  unfold main, bind.
  destruct (loop w cfg (Z.to_nat (NUM cfg)) 0 ([], []) [])
    as [t [[results saved] | e]]; reflexivity.
Qed.

(** An invariant of the loop, read on the whole process: either the loop
    ran to its end, the invariant holds of what it left and the summary of
    its results is the next call; or a ledger write cut it short. *)
Lemma run_invariant (w : World) (cli : Cli) (env : Env)
    (Inv : nat -> list IterationResult -> list SavedWallet -> Trace -> Prop)
    (Cut : nat -> Trace -> Prop) :
  config_missing cli env = false ->
  let cfg := config (argv cli env) env in
  let N := Z.to_nat (NUM cfg) in
  Inv 0 [] [] [] ->
  (forall i results saved t out,
      Inv i results saved t ->
      iteration_path w cfg i results saved t out ->
      match out with
      | (t', Normal (results', saved')) => Inv (S i) results' saved' t'
      | (t', Throw _) => Cut (S i) t'
      end) ->
  (exists t results saved,
      Inv N results saved t
      /\ summaries t = []
      /\ let ev := EvWriteFile "farm-results.json"
                     (ResultsJson (summary cfg (w_now w t) results)) in
         program w cli env = {| exit_status := 0; effects := ev :: t |}
         \/ exists e,
              program w cli env =
                {| exit_status := 1;
                   effects := EvConsoleError [LogStr "Fatal error:"; LogErr e]
                              :: ev :: t |})
  \/ (exists t e k,
        k <= N /\ Cut k t
        /\ summaries t = []
        /\ program w cli env =
             {| exit_status := 1;
                effects := EvConsoleError [LogStr "Fatal error:"; LogErr e]
                           :: t |}).
Proof.
  intros Hcfg cfg N H0 Hstep.
  rewrite (program_configured w cli env Hcfg). fold cfg.
  rewrite main_by_loop. fold N.
  pose proof (loop_invariant w cfg Inv Cut Hstep N 0 [] [] [] H0) as Hloop.
  destruct (loop w cfg N 0 ([], []) []) as [t [arrays | e]] eqn:Eloop.
  - destruct (emits_run _ _ _ _ _ (loop_emits w cfg _ _ _) Eloop)
      as [evs [Ht Hevs]].
    rewrite app_nil_r in Ht. subst evs. destruct arrays as [results saved].
    left. exists t, results, saved. rewrite Nat.add_0_r in Hloop.
    split; [exact Hloop | ].
    split; [exact (summaries_iterations t cfg Hevs) | ]. cbv zeta.
    destruct (w_writeFileSync w t "farm-results.json" _) as [[] | e'];
      [left; reflexivity | right; exists e'; reflexivity].
  - destruct (emits_run _ _ _ _ _ (loop_emits w cfg _ _ _) Eloop)
      as [evs [Ht Hevs]].
    rewrite app_nil_r in Ht. subst evs.
    right. destruct Hloop as [k [Hk HC]]. exists t, e, k.
    split; [lia | ]. split; [exact HC | ].
    split; [exact (summaries_iterations t cfg Hevs) | reflexivity].
Qed.

(** ** Counting submissions *)

Lemma count_app (p : Event -> bool) (a b : Trace) :
  count p (a ++ b)%list = count p a + count p b.
Proof. unfold count. rewrite filter_app, length_app. reflexivity. Qed.

Lemma count_cons (p : Event -> bool) (ev : Event) (t : Trace) :
  count p (ev :: t) = (if p ev then 1 else 0) + count p t.
Proof. unfold count. simpl. destruct (p ev); reflexivity. Qed.

Lemma count_forall (P : Event -> Prop) (p : Event -> bool) (l : Trace) :
  (forall ev, P ev -> p ev = false) -> Forall P l -> count p l = 0.
Proof.
  intros HP H. apply count_none. eapply Forall_impl; [ | exact H]. exact HP.
Qed.

Section Spends.

Variable p : Event -> bool.

Lemma spends_lift {A} (k : nat) (c : Completion A) : spends p k (lift c).
Proof. intros t. exists []. split; [reflexivity | apply Nat.le_0_l]. Qed.

Lemma spends_ret {A} (k : nat) (a : A) : spends p k (ret a).
Proof. intros t. exists []. split; [reflexivity | apply Nat.le_0_l]. Qed.

Lemma spends_throw {A} (k : nat) (e : JsError) : spends p k (@throw A e).
Proof. intros t. exists []. split; [reflexivity | apply Nat.le_0_l]. Qed.

Lemma spends_call {A} (k : nat) (ev : Event) (answer : Trace -> Completion A) :
  (if p ev then 1 else 0) <= k -> spends p k (call ev answer).
Proof.
  intros Hk t. exists [ev]. split; [reflexivity | ].
  rewrite count_cons. unfold count. simpl. lia.
Qed.

Lemma spends_bind {A B} (k1 k2 : nat) (m : M A) (f : A -> M B) :
  spends p k1 m -> (forall a, spends p k2 (f a)) ->
  spends p (k1 + k2) (bind m f).
Proof.
  intros Hm Hf t. unfold bind.
  destruct (Hm t) as [n1 [E1 C1]].
  destruct (m t) as [t1 [a | e]]; simpl in E1; subst t1.
  - destruct (Hf a (n1 ++ t)%list) as [n2 [E2 C2]].
    exists (n2 ++ n1)%list. rewrite E2, app_assoc.
    split; [reflexivity | ]. rewrite count_app. lia.
  - exists n1. split; [reflexivity | lia].
Qed.

Lemma spends_try {A} (k : nat) (m : M A) : spends p k m -> spends p k (try m).
Proof.
  intros Hm t. unfold try. destruct (Hm t) as [n [E C]].
  destruct (m t) as [t1 c]. exists n. split; assumption.
Qed.

(** [retries] retries cost at most [retries + 1] times what one attempt
    costs, the observation hook costing nothing. *)
Lemma spends_pRetry {A} (k : nat) (input : M A) (hook : JsError -> M unit)
    (retries : nat) :
  spends p k input -> (forall e, spends p 0 (hook e)) ->
  spends p (S retries * k) (pRetry input retries hook).
Proof.
  intros Hin Hhook. induction retries as [| n IH].
  - replace (1 * k) with (k + 0) by lia.
    change (pRetry input 0 hook) with
      (bind (try input)
         (fun c => match c with
                   | Normal a => ret a
                   | Throw err => bind (hook err) (fun _ => throw err)
                   end)).
    apply spends_bind; [apply spends_try; exact Hin | ].
    intros [a | e]; [apply spends_ret | ].
    apply (spends_bind 0 0); [apply Hhook | intros _; apply spends_throw].
  - replace (S (S n) * k) with (k + (0 + S n * k)) by lia.
    change (pRetry input (S n) hook) with
      (bind (try input)
         (fun c => match c with
                   | Normal a => ret a
                   | Throw err =>
                       bind (hook err) (fun _ => pRetry input n hook)
                   end)).
    apply spends_bind; [apply spends_try; exact Hin | ].
    intros [a | e]; [apply spends_ret | ].
    apply spends_bind; [apply Hhook | intros _; exact IH].
Qed.

Lemma spends_run {A} (k : nat) (m : M A) (t t' : Trace) (c : Completion A) :
  spends p k m -> m t = (t', c) ->
  exists new, t' = (new ++ t)%list /\ count p new <= k.
Proof.
  intros Hm E. destruct (Hm t) as [new [E1 C1]].
  rewrite E in E1. exists new. split; assumption.
Qed.

End Spends.

Section Budget.

Variable w : World.
Variable cfg : Config.

(** The funding of one wallet submits at most three transfers. *)
Lemma funding_spends (addr : string) :
  spends is_funding 3 (pRetry (fundWallet w cfg addr) 2 fundOnFailedAttempt).
Proof.
  apply (spends_pRetry is_funding 1).
  - unfold fundWallet.
    apply (spends_bind is_funding 0 1); [apply spends_lift | intros value].
    apply (spends_bind is_funding 1 0); [ | intros tx].
    + apply spends_call. simpl. lia.
    + apply spends_call. simpl. lia.
  - intros e. apply spends_call. simpl. lia.
Qed.

(** The payload step of one wallet submits at most three contract calls. *)
Lemma store_spends (wallet : Wallet) (msg : string) :
  spends is_payload 3 (sendStoreMessageTx w cfg wallet msg).
Proof.
  unfold sendStoreMessageTx.
  apply (spends_bind is_payload 0 3); [apply spends_call; simpl; lia | intros _].
  apply (spends_pRetry is_payload 1).
  - unfold storeAttempt.
    apply (spends_bind is_payload 0 1); [apply spends_lift | intros data].
    apply (spends_bind is_payload 0 1);
      [apply spends_try, spends_call; simpl; lia | intros estimate].
    apply (spends_bind is_payload 0 1);
      [destruct estimate; [apply spends_ret | apply spends_lift] | intros g].
    apply (spends_bind is_payload 1 0); [apply spends_call; simpl; lia | ].
    intros tx. apply (spends_bind is_payload 0 0);
      [apply spends_call; simpl; lia | intros rcpt; apply spends_ret].
  - intros e. apply spends_call. simpl. lia.
Qed.

Lemma fund_event_not_payload (addr : string) (ev : Event) :
  fund_event w cfg addr ev -> is_payload ev = false.
Proof.
  intros [[value [_ ->]] | [[hash ->] | [args ->]]]; reflexivity.
Qed.

Lemma store_event_not_funding (wallet : Wallet) (ev : Event) :
  store_event cfg wallet ev -> is_funding ev = false.
Proof.
  intros [[data ->] | [[data [g ->]] | [[hash ->] | [args ->]]]]; reflexivity.
Qed.

Lemma count_history_after_save (p : Event -> bool) (i : nat) (wallet : Wallet)
    (saved : list SavedWallet) (t : Trace) :
  (forall path l, p (EvWriteFile path (WalletsJson l)) = false) ->
  count p (history_after_save cfg i wallet saved t) = count p t.
Proof.
  intros Hp. unfold history_after_save. destruct (SAVE_WALLETS cfg);
    [ | reflexivity].
  rewrite count_cons, Hp. reflexivity.
Qed.

(** One iteration, whatever its path, submits at most three transfers and at
    most three contract calls. *)
Lemma iteration_budget (i : nat) (results : list IterationResult)
    (saved : list SavedWallet) (t : Trace) (out : Trace * Completion Arrays) :
  iteration_path w cfg i results saved t out ->
  count is_funding (fst out) <= 3 + count is_funding t
  /\ count is_payload (fst out) <= 3 + count is_payload t.
Proof.
  intros Hpath.
  assert (Hcreate : forall t1 c, createWallet w cfg i t = (t1, c) ->
            count is_funding t1 = count is_funding t
            /\ count is_payload t1 = count is_payload t).
  { intros t1 c H.
    destruct (emits_run _ _ _ _ _ (createWallet_emits w cfg i) H) as [n1 [-> F1]].
    rewrite !count_app.
    assert (Hf : count is_funding n1 = 0)
      by (eapply count_forall; [ | exact F1]; intros ev [_ ->]; reflexivity).
    assert (Hp : count is_payload n1 = 0)
      by (eapply count_forall; [ | exact F1]; intros ev [_ ->]; reflexivity).
    rewrite Hf, Hp. auto. }
  assert (Hfund : forall wallet t1 t3 c,
            pRetry (fundWallet w cfg (address wallet)) 2 fundOnFailedAttempt
              (history_after_save cfg i wallet saved t1) = (t3, c) ->
            count is_funding t3 <= 3 + count is_funding t1
            /\ count is_payload t3 = count is_payload t1).
  { intros wallet t1 t3 c H.
    destruct (spends_run _ _ _ _ _ _ (funding_spends (address wallet)) H)
      as [n3 [E3 C3]].
    destruct (emits_run _ _ _ _ _ (funding_emits w cfg (address wallet)) H)
      as [n3' [E3' F3]].
    rewrite E3 in E3'. apply app_inv_tail in E3'. subst n3'.
    rewrite E3, !count_app, !count_history_after_save by reflexivity.
    rewrite (count_forall _ is_payload n3 (fund_event_not_payload _) F3). lia. }
  assert (Hstore : forall wallet t3 t4 c,
            sendStoreMessageTx w cfg wallet (store_message cfg i)
              (EvSleep 1000 :: t3) = (t4, c) ->
            count is_funding t4 = count is_funding t3
            /\ count is_payload t4 <= 3 + count is_payload t3).
  { intros wallet t3 t4 c H.
    destruct (spends_run _ _ _ _ _ _ (store_spends wallet _) H)
      as [n4 [E4 C4]].
    destruct (sendStoreMessageTx_history w cfg _ _ _ _ _ H) as [n4' [E4' F4]].
    split.
    - rewrite E4', count_app, !count_cons. simpl.
      rewrite (count_forall _ is_funding n4' (store_event_not_funding _) F4).
      reflexivity.
    - rewrite E4, count_app, count_cons. simpl. lia. }
  destruct Hpath as [t1 err Hc | t1 wallet err Hc Hs Hw
                    | t1 t3 wallet err Hc Hs Hf
                    | t1 t3 t4 wallet fundRes err Hc Hs Hf Hst
                    | t1 t3 t4 wallet fundRes sendRes Hc Hs Hf Hst];
    cbn [fst]; rewrite ?count_cons; cbn [is_funding is_payload];
    try (rewrite !count_history_after_save by reflexivity);
    pose proof (Hcreate _ _ Hc) as [? ?];
    try pose proof (Hfund _ _ _ _ Hf) as [? ?];
    try pose proof (Hstore _ _ _ _ Hst) as [? ?]; lia.
Qed.

End Budget.

(** A run of N iterations submits at most 3 N transfers and at most 3 N
    contract calls, whatever fails and however the run ends. *)
Theorem submissions_bounded (w : World) (cli : Cli) (env : Env) :
  let N := Z.to_nat (num (argv cli env)) in
  count is_funding (effects (program w cli env)) <= 3 * N
  /\ count is_payload (effects (program w cli env)) <= 3 * N.
Proof.
  intros N.
  destruct (config_missing cli env) eqn:Hcfg.
  - destruct (program_unconfigured w cli env Hcfg) as [line ->].
    split; apply Nat.le_0_l.
  - destruct (run_invariant w cli env
                (fun i _ _ t => count is_funding t <= 3 * i
                                /\ count is_payload t <= 3 * i)
                (fun k t => count is_funding t <= 3 * k
                            /\ count is_payload t <= 3 * k)
                Hcfg)
      as [[t [results [saved [[Hf Hp] [_ Hend]]]]]
         | [t [e [k [Hk [[Hf Hp] [_ E]]]]]]].
    + split; apply Nat.le_0_l.
    + intros i results saved t out [Hf Hp] Hpath.
      destruct (iteration_budget w _ i results saved t out Hpath) as [Bf Bp].
      destruct out as [t' [[results' saved'] | e]]; cbn [fst] in Bf, Bp; lia.
    + change (Z.to_nat (NUM (config (argv cli env) env))) with N in Hf, Hp.
      destruct Hend as [E | [e E]]; rewrite E; cbn [effects];
        rewrite !count_cons; cbn [is_funding is_payload]; lia.
    + change (Z.to_nat (NUM (config (argv cli env) env))) with N in Hk.
      rewrite E. cbn [effects]. rewrite !count_cons.
      cbn [is_funding is_payload]. lia.
Qed.

(** The bound is reached: every transfer rejected three times. *)
Example transfers_bound_reached :
  count is_funding
    (effects (program world_funding_rejected (cli_num_only 2) env_readme)) = 6.
Proof. reflexivity. Qed.

(** ** Properties of every event of a run *)

Section PathForall.

Variable w : World.
Variable cfg : Config.
Variable P : Event -> Prop.

Hypothesis P_create : USE_HD cfg = false -> P EvCreateRandom.
Hypothesis P_ledger :
  SAVE_WALLETS cfg = true ->
  forall l, P (EvWriteFile "wallets.json" (WalletsJson l)).
Hypothesis P_error : forall args, P (EvConsoleError args).
Hypothesis P_sleep : forall ms, P (EvSleep ms).
Hypothesis P_balance : forall a, P (EvGetBalance a).
Hypothesis P_fund : forall addr ev, fund_event w cfg addr ev -> P ev.
Hypothesis P_store : forall wallet ev, store_event cfg wallet ev -> P ev.

Lemma history_after_save_forall (i : nat) (wallet : Wallet)
    (saved : list SavedWallet) (t : Trace) :
  Forall P t -> Forall P (history_after_save cfg i wallet saved t).
Proof.
  intros H. unfold history_after_save.
  destruct (SAVE_WALLETS cfg) eqn:Hs; [constructor; auto | exact H].
Qed.

Lemma path_forall (i : nat) (results : list IterationResult)
    (saved : list SavedWallet) (t : Trace) (out : Trace * Completion Arrays) :
  iteration_path w cfg i results saved t out ->
  Forall P t -> Forall P (fst out).
Proof.
  intros Hpath Ht.
  assert (Hcreate : forall t1 c, createWallet w cfg i t = (t1, c) ->
            Forall P t1).
  { intros t1 c H.
    destruct (emits_run _ _ _ _ _ (createWallet_emits w cfg i) H) as [n1 [-> F1]].
    apply Forall_app. split; [ | exact Ht].
    eapply Forall_impl; [ | exact F1]. intros ev [Hhd ->]. exact (P_create Hhd). }
  assert (Hfund : forall wallet t1 t3 c,
            Forall P t1 ->
            pRetry (fundWallet w cfg (address wallet)) 2 fundOnFailedAttempt
              (history_after_save cfg i wallet saved t1) = (t3, c) ->
            Forall P t3).
  { intros wallet t1 t3 c H1 H.
    destruct (emits_run _ _ _ _ _ (funding_emits w cfg (address wallet)) H)
      as [n3 [-> F3]].
    apply Forall_app. split; [ | apply history_after_save_forall; exact H1].
    eapply Forall_impl; [ | exact F3]. apply P_fund. }
  assert (Hstore : forall wallet t3 t4 c,
            Forall P t3 ->
            sendStoreMessageTx w cfg wallet (store_message cfg i)
              (EvSleep 1000 :: t3) = (t4, c) ->
            Forall P t4).
  { intros wallet t3 t4 c H3 H.
    destruct (sendStoreMessageTx_history w cfg _ _ _ _ _ H) as [n4 [-> F4]].
    apply Forall_app. split.
    - eapply Forall_impl; [ | exact F4]. apply P_store.
    - constructor; [apply P_balance | ]. constructor; [apply P_sleep | exact H3]. }
  destruct Hpath as [t1 err Hc | t1 wallet err Hc Hs Hw
                    | t1 t3 wallet err Hc Hs Hf
                    | t1 t3 t4 wallet fundRes err Hc Hs Hf Hst
                    | t1 t3 t4 wallet fundRes sendRes Hc Hs Hf Hst];
    cbn [fst].
  - constructor; [apply P_error | exact (Hcreate _ _ Hc)].
  - apply history_after_save_forall. exact (Hcreate _ _ Hc).
  - constructor; [apply P_error | ].
    exact (Hfund _ _ _ _ (Hcreate _ _ Hc) Hf).
  - constructor; [apply P_sleep | ]. constructor; [apply P_error | ].
    exact (Hstore _ _ _ _ (Hfund _ _ _ _ (Hcreate _ _ Hc) Hf) Hst).
  - constructor; [apply P_sleep | ].
    exact (Hstore _ _ _ _ (Hfund _ _ _ _ (Hcreate _ _ Hc) Hf) Hst).
Qed.

End PathForall.

(** Every submission of a run is either a transfer of the funding amount
    from the funder, without payload, or a call of the contract that sends
    no value and carries a gas limit. *)
Theorem submissions_well_formed (w : World) (cli : Cli) (env : Env) :
  Forall (submission_shape w (config (argv cli env) env))
    (effects (program w cli env)).
Proof.
  set (cfg := config (argv cli env) env).
  destruct (config_missing cli env) eqn:Hcfg.
  - destruct (program_unconfigured w cli env Hcfg) as [line ->].
    repeat constructor.
  - assert (Hstep : forall i results saved t out,
              Forall (submission_shape w cfg) t ->
              iteration_path w cfg i results saved t out ->
              Forall (submission_shape w cfg) (fst out)).
    { intros i results saved t out Ht Hpath.
      refine (path_forall w cfg (submission_shape w cfg) (fun _ => I)
                (fun _ _ => I)
                (fun _ => I) (fun _ => I) (fun _ => I) _ _
                i results saved t out Hpath Ht).
      - intros addr ev [[value [Hv ->]] | [[hash ->] | [args ->]]];
          simpl; eauto 10.
      - intros wallet ev [[data ->] | [[data [g ->]] | [[hash ->] | [args ->]]]];
          simpl; eauto 10. }
    destruct (run_invariant w cli env
                (fun _ _ _ t => Forall (submission_shape w cfg) t)
                (fun _ t => Forall (submission_shape w cfg) t) Hcfg)
      as [[t [results [saved [Ht [_ Hend]]]]] | [t [e [k [_ [Ht [_ E]]]]]]].
    + constructor.
    + intros i results saved t out Ht Hpath.
      pose proof (Hstep i results saved t out Ht Hpath) as H.
      destruct out as [t' [[results' saved'] | e]]; exact H.
    + destruct Hend as [E | [e E]]; rewrite E; cbn [effects];
        repeat (constructor; [exact I | ]); exact Ht.
    + rewrite E. cbn [effects]. constructor; [exact I | exact Ht].
Qed.

(** ** The wallet ledger *)

Lemma last_ledger_app (new t : Trace) :
  Forall (fun ev => is_ledger_write ev = false) new ->
  last_ledger (new ++ t)%list = last_ledger t.
Proof.
  induction 1 as [| ev new Hev _ IH]; simpl; [reflexivity | ].
  destruct ev as [ | | | | | | path [l | s] | | ]; try exact IH. discriminate.
Qed.

Lemma funded_after_saved_app (new t : Trace) :
  funded_after_saved t ->
  Forall (fun ev =>
            is_ledger_write ev = false
            /\ match transfer_target ev with
               | Some a => In a (map sw_address (last_ledger t))
               | None => True
               end) new ->
  funded_after_saved (new ++ t)%list.
Proof.
  intros Ht H. induction H as [| ev new [Hw Hev] Hnew IH]; [exact Ht | ].
  simpl. split; [ | exact IH].
  rewrite last_ledger_app; [exact Hev | ].
  eapply Forall_impl; [ | exact Hnew]. intros ? [? _]. assumption.
Qed.

Lemma provisioned_push (results : list IterationResult) (r : IterationResult) :
  provisioned (push results r) =
    (provisioned results ++
     match r_address r with
     | Some a => [(r_index r, a)]
     | None => []
     end)%list.
Proof.
  unfold push. induction results as [| r0 results IH]; simpl.
  - destruct (r_address r); reflexivity.
  - rewrite IH. destruct (r_address r0); reflexivity.
Qed.

Lemma ledger_keys_push (saved : list SavedWallet) (s : SavedWallet) :
  ledger_keys (push saved s) =
    (ledger_keys saved ++ [(sw_index s, sw_address s)])%list.
Proof. unfold ledger_keys, push. apply map_app. Qed.

Section Ledger.

Variable w : World.
Variable cfg : Config.
Hypothesis Hsave : SAVE_WALLETS cfg = true.

Lemma ledger_step (i : nat) (results : list IterationResult)
    (saved : list SavedWallet) (t : Trace) (out : Trace * Completion Arrays) :
  ledger_invariant results saved t ->
  iteration_path w cfg i results saved t out ->
  match out with
  | (t', Normal (results', saved')) => ledger_invariant results' saved' t'
  | (t', Throw _) => funded_after_saved t'
  end.
Proof.
  intros [Hfas [Hlast Hkeys]] Hpath.
  assert (Hcreate : forall t1 c, createWallet w cfg i t = (t1, c) ->
            funded_after_saved t1 /\ last_ledger t1 = saved).
  { intros t1 c H.
    destruct (emits_run _ _ _ _ _ (createWallet_emits w cfg i) H) as [n1 [-> F1]].
    split.
    - apply funded_after_saved_app; [exact Hfas | ].
      eapply Forall_impl; [ | exact F1].
      intros ev [_ ->]. split; [reflexivity | exact I].
    - rewrite last_ledger_app; [exact Hlast | ].
      eapply Forall_impl; [ | exact F1]. intros ev [_ ->]. reflexivity. }
  assert (Hfund : forall wallet t1 t3 c,
            funded_after_saved t1 ->
            pRetry (fundWallet w cfg (address wallet)) 2 fundOnFailedAttempt
              (history_after_save cfg i wallet saved t1) = (t3, c) ->
            funded_after_saved t3
            /\ last_ledger t3 = push saved (ledger_entry i wallet)).
  { intros wallet t1 t3 c H1 H.
    destruct (emits_run _ _ _ _ _ (funding_emits w cfg (address wallet)) H)
      as [n3 [-> F3]].
    unfold history_after_save. rewrite Hsave. split.
    - apply funded_after_saved_app; [simpl; auto | ].
      eapply Forall_impl; [ | exact F3].
      intros ev [[value [_ ->]] | [[hash ->] | [args ->]]]; simpl; auto.
      split; [reflexivity | ]. unfold push. rewrite map_app.
      apply in_or_app. right. left. reflexivity.
    - rewrite last_ledger_app; [reflexivity | ].
      eapply Forall_impl; [ | exact F3].
      intros ev [[value [_ ->]] | [[hash ->] | [args ->]]]; reflexivity. }
  assert (Hstore : forall wallet t3 t4 c,
            funded_after_saved t3 ->
            sendStoreMessageTx w cfg wallet (store_message cfg i)
              (EvSleep 1000 :: t3) = (t4, c) ->
            funded_after_saved t4 /\ last_ledger t4 = last_ledger t3).
  { intros wallet t3 t4 c H3 H.
    destruct (sendStoreMessageTx_history w cfg _ _ _ _ _ H) as [n4 [-> F4]].
    split.
    - apply funded_after_saved_app; [simpl; auto | ].
      eapply Forall_impl; [ | exact F4].
      intros ev [[data ->] | [[data [g ->]] | [[hash ->] | [args ->]]]];
        simpl; auto.
    - rewrite last_ledger_app; [reflexivity | ].
      eapply Forall_impl; [ | exact F4].
      intros ev [[data ->] | [[data [g ->]] | [[hash ->] | [args ->]]]];
        reflexivity. }
  assert (Hkeys' : forall wallet r,
            r_address r = Some (address wallet) -> r_index r = i ->
            ledger_keys (ledger_after cfg i wallet saved)
              = provisioned (push results r)).
  { intros wallet r Ha Hi. unfold ledger_after. rewrite Hsave.
    rewrite ledger_keys_push, provisioned_push, Ha, Hi, Hkeys. reflexivity. }
  assert (Hafter : forall wallet,
            ledger_after cfg i wallet saved = push saved (ledger_entry i wallet)).
  { intros wallet. unfold ledger_after. rewrite Hsave. reflexivity. }
  destruct Hpath as [t1 err Hc | t1 wallet err Hc Hs Hw
                    | t1 t3 wallet err Hc Hs Hf
                    | t1 t3 t4 wallet fundRes err Hc Hs Hf Hst
                    | t1 t3 t4 wallet fundRes sendRes Hc Hs Hf Hst];
    destruct (Hcreate _ _ Hc) as [Hfas1 Hlast1].
  - split; [simpl; auto | ]. split; [exact Hlast1 | ].
    rewrite provisioned_push. simpl. rewrite app_nil_r. exact Hkeys.
  - unfold history_after_save. rewrite Hsave. simpl. auto.
  - destruct (Hfund _ _ _ _ Hfas1 Hf) as [Hfas3 Hlast3].
    split; [simpl; auto | ]. split.
    + rewrite Hafter. exact Hlast3.
    + apply Hkeys'; reflexivity.
  - destruct (Hfund _ _ _ _ Hfas1 Hf) as [Hfas3 Hlast3].
    destruct (Hstore _ _ _ _ Hfas3 Hst) as [Hfas4 Hlast4].
    split; [simpl; auto | ]. split.
    + rewrite Hafter. simpl. rewrite Hlast4. exact Hlast3.
    + apply Hkeys'; reflexivity.
  - destruct (Hfund _ _ _ _ Hfas1 Hf) as [Hfas3 Hlast3].
    destruct (Hstore _ _ _ _ Hfas3 Hst) as [Hfas4 Hlast4].
    split; [simpl; auto | ]. split.
    + rewrite Hafter. simpl. rewrite Hlast4. exact Hlast3.
    + apply Hkeys'; reflexivity.
Qed.

End Ledger.

(** With the wallet ledger kept (the default), value is only ever
    transferred to a wallet whose key is in the ledger as last written to
    disk before the transfer: no wallet is funded before it is saved. *)
Theorem transfers_only_to_saved_wallets (w : World) (cli : Cli) (env : Env) :
  saveWallets (argv cli env) = true ->
  funded_after_saved (effects (program w cli env)).
Proof.
  intros Hsave.
  destruct (config_missing cli env) eqn:Hcfg.
  - destruct (program_unconfigured w cli env Hcfg) as [line ->].
    simpl. auto.
  - destruct (run_invariant w cli env
                (fun _ results saved t => ledger_invariant results saved t)
                (fun _ t => funded_after_saved t) Hcfg)
      as [[t [results [saved [[Hfas _] [_ Hend]]]]]
         | [t [e [k [_ [Hfas [_ E]]]]]]].
    + repeat split.
    + intros i results saved t out.
      apply (ledger_step w (config (argv cli env) env) Hsave).
    + destruct Hend as [E | [e E]]; rewrite E; simpl; auto.
    + rewrite E. simpl. auto.
Qed.

Lemma transfers_only_to_saved_wallets_witness :
  funded_after_saved
    (effects (program world_confirmation_lost_once (cli_num_only 2) env_readme)).
Proof.
  apply (transfers_only_to_saved_wallets
           world_confirmation_lost_once (cli_num_only 2) env_readme).
  reflexivity.
Defined.

(** With [--saveWallets false] the guarantee is gone: the first transfer
    goes to a wallet that no ledger holds. *)
Example unsaved_wallet_is_funded :
  ~ funded_after_saved
      (effects (program world_ok (cli_unsaved 1) env_readme)).
Proof.
  vm_compute. intros H. decompose [and] H.
  repeat match goal with H' : False |- _ => destruct H' end.
Qed.

(** With the wallet ledger kept, whenever the run gets to its summary the
    ledger last written to disk lists exactly the wallets that the summary
    shows with an address, with the same indices and in the same order. *)
Theorem ledger_matches_summary (w : World) (cli : Cli) (env : Env)
    (s : Summary) :
  saveWallets (argv cli env) = true ->
  In s (summaries (effects (program w cli env))) ->
  ledger_keys (last_ledger (effects (program w cli env)))
    = provisioned (s_results s).
Proof.
  intros Hsave Hin.
  destruct (config_missing cli env) eqn:Hcfg.
  - destruct (program_unconfigured w cli env Hcfg) as [line E].
    rewrite E in Hin. destruct Hin.
  - destruct (run_invariant w cli env
                (fun _ results saved t => ledger_invariant results saved t)
                (fun _ t => funded_after_saved t) Hcfg)
      as [[t [results [saved [[_ [Hlast Hkeys]] [Hnone Hend]]]]]
         | [t [e [k [_ [_ [Hnone E]]]]]]].
    + repeat split.
    + intros i results saved t out.
      apply (ledger_step w (config (argv cli env) env) Hsave).
    + destruct Hend as [E | [e E]]; rewrite E in Hin |- *;
        simpl in Hin |- *; rewrite Hnone in Hin;
        destruct Hin as [<- | []]; simpl; rewrite Hlast; exact Hkeys.
    + rewrite E in Hin. simpl in Hin. rewrite Hnone in Hin. destruct Hin.
Qed.

Lemma ledger_matches_summary_witness :
  let out := program world_store_rejected (cli_num_only 2) env_readme in
  let s := hd (summary (cfg_readme cli_none) "" []) (summaries (effects out)) in
  ledger_keys (last_ledger (effects out)) = provisioned (s_results s).
Proof.
  intros out s.
  apply (ledger_matches_summary
           world_store_rejected (cli_num_only 2) env_readme s).
  - reflexivity.
  - left. reflexivity.
Defined.

(** A property of every kind of event the script produces holds of every
    event of every run. *)
Lemma run_forall (w : World) (cli : Cli) (env : Env) (P : Event -> Prop) :
  let cfg := config (argv cli env) env in
  (USE_HD cfg = false -> P EvCreateRandom) ->
  (SAVE_WALLETS cfg = true ->
   forall l, P (EvWriteFile "wallets.json" (WalletsJson l))) ->
  (forall args, P (EvConsoleError args)) ->
  (forall ms, P (EvSleep ms)) ->
  (forall a, P (EvGetBalance a)) ->
  (forall addr ev, fund_event w cfg addr ev -> P ev) ->
  (forall wallet ev, store_event cfg wallet ev -> P ev) ->
  (forall s, P (EvWriteFile "farm-results.json" (ResultsJson s))) ->
  Forall P (effects (program w cli env)).
Proof.
  intros cfg Pc Pl Pe Ps Pb Pf Pst Psum.
  destruct (config_missing cli env) eqn:Hcfg.
  - destruct (program_unconfigured w cli env Hcfg) as [line ->].
    constructor; [apply Pe | constructor].
  - destruct (run_invariant w cli env
                (fun _ _ _ t => Forall P t) (fun _ t => Forall P t) Hcfg)
      as [[t [results [saved [Ht [_ Hend]]]]] | [t [e [k [_ [Ht [_ E]]]]]]].
    + constructor.
    + intros i results saved t out Ht Hpath.
      pose proof (path_forall w cfg P Pc Pl Pe Ps Pb Pf Pst
                    i results saved t out Hpath Ht) as H.
      destruct out as [t' [[results' saved'] | e]]; exact H.
    + destruct Hend as [E | [e E]]; rewrite E; cbn [effects];
        repeat (constructor; [solve [apply Pe | apply Psum] | ]); exact Ht.
    + rewrite E. cbn [effects]. constructor; [apply Pe | exact Ht].
Qed.

(** With [--saveWallets false] no wallet ledger is ever written: the keys of
    the wallets the run creates and funds are kept nowhere. *)
Theorem ledger_disabled_never_written (w : World) (cli : Cli) (env : Env) :
  saveWallets (argv cli env) = false ->
  count is_ledger_write (effects (program w cli env)) = 0.
Proof.
  intros Hsave. apply count_none.
  apply (run_forall w cli env (fun ev => is_ledger_write ev = false));
    try (intros; reflexivity).
  - intros H. change (saveWallets (argv cli env) = true) in H.
    rewrite Hsave in H. discriminate H.
  - intros addr ev [[value [_ ->]] | [[hash ->] | [args ->]]]; reflexivity.
  - intros wallet ev [[data ->] | [[data [g ->]] | [[hash ->] | [args ->]]]];
      reflexivity.
Qed.

Lemma ledger_disabled_never_written_witness :
  count is_ledger_write
    (effects (program world_ok (cli_unsaved 2) env_readme)) = 0.
Proof.
  apply (ledger_disabled_never_written world_ok (cli_unsaved 2) env_readme).
  reflexivity.
Defined.

(** ** Pauses *)

Lemma total_sleep_app (new t : Trace) :
  Forall (fun ev => is_sleep ev = false) new ->
  total_sleep (new ++ t)%list = total_sleep t.
Proof.
  induction 1 as [| ev new Hev _ IH]; simpl; [reflexivity | ].
  destruct ev; try exact IH. discriminate.
Qed.

Lemma fund_event_not_sleep (w : World) (cfg : Config) (addr : string)
    (ev : Event) :
  fund_event w cfg addr ev -> is_sleep ev = false.
Proof. intros [[value [_ ->]] | [[hash ->] | [args ->]]]; reflexivity. Qed.

Lemma store_event_not_sleep (cfg : Config) (wallet : Wallet) (ev : Event) :
  store_event cfg wallet ev -> is_sleep ev = false.
Proof.
  intros [[data ->] | [[data [g ->]] | [[hash ->] | [args ->]]]]; reflexivity.
Qed.

Lemma reached_push (results : list IterationResult) (r : IterationResult) :
  List.length (filter reached_payload (push results r)) =
    List.length (filter reached_payload results)
    + (if reached_payload r then 1 else 0).
Proof.
  unfold push. rewrite filter_app, length_app. simpl.
  destruct (reached_payload r); reflexivity.
Qed.

Section Pauses.

Variable w : World.
Variable cfg : Config.

(** The time slept so far is one settle delay and one rate delay for every
    recorded iteration that got to the payload step. *)
Lemma sleep_step (i : nat) (results : list IterationResult)
    (saved : list SavedWallet) (t : Trace) (out : Trace * Completion Arrays) :
  total_sleep t =
    (Z.of_nat (List.length (filter reached_payload results))
     * (1000 + RATE_SECONDS cfg * 1000))%Z ->
  iteration_path w cfg i results saved t out ->
  match out with
  | (t', Normal (results', _)) =>
      total_sleep t' =
        (Z.of_nat (List.length (filter reached_payload results'))
         * (1000 + RATE_SECONDS cfg * 1000))%Z
  | (_, Throw _) => True
  end.
Proof.
  intros Ht Hpath.
  assert (Hcreate : forall t1 c, createWallet w cfg i t = (t1, c) ->
            total_sleep t1 = total_sleep t).
  { intros t1 c H.
    destruct (emits_run _ _ _ _ _ (createWallet_emits w cfg i) H) as [n1 [-> F1]].
    apply total_sleep_app. eapply Forall_impl; [ | exact F1].
    intros ev [_ ->]. reflexivity. }
  assert (Hfund : forall wallet t1 t3 c,
            pRetry (fundWallet w cfg (address wallet)) 2 fundOnFailedAttempt
              (history_after_save cfg i wallet saved t1) = (t3, c) ->
            total_sleep t3 = total_sleep t1).
  { intros wallet t1 t3 c H.
    destruct (emits_run _ _ _ _ _ (funding_emits w cfg (address wallet)) H)
      as [n3 [-> F3]].
    rewrite total_sleep_app.
    - unfold history_after_save. destruct (SAVE_WALLETS cfg); reflexivity.
    - eapply Forall_impl; [ | exact F3]. apply fund_event_not_sleep. }
  assert (Hstore : forall wallet t3 t4 c,
            sendStoreMessageTx w cfg wallet (store_message cfg i)
              (EvSleep 1000 :: t3) = (t4, c) ->
            total_sleep t4 = (1000 + total_sleep t3)%Z).
  { intros wallet t3 t4 c H.
    destruct (sendStoreMessageTx_history w cfg _ _ _ _ _ H) as [n4 [-> F4]].
    rewrite total_sleep_app; [reflexivity | ].
    eapply Forall_impl; [ | exact F4]. apply store_event_not_sleep. }
  destruct Hpath as [t1 err Hc | t1 wallet err Hc Hs Hw
                    | t1 t3 wallet err Hc Hs Hf
                    | t1 t3 t4 wallet fundRes err Hc Hs Hf Hst
                    | t1 t3 t4 wallet fundRes sendRes Hc Hs Hf Hst];
    try exact I; rewrite reached_push; cbn [total_sleep];
    pose proof (Hcreate _ _ Hc) as H1;
    try pose proof (Hfund _ _ _ _ Hf) as H3;
    try pose proof (Hstore _ _ _ _ Hst) as H4;
    cbn [reached_payload create_failure fund_failure store_failure success
         r_step String.eqb Ascii.eqb Bool.eqb]; lia.
Qed.

End Pauses.

(** Whenever the run gets to its summary, the time it has spent in [sleep]
    is exactly one settle delay (1000 ms) plus one rate delay for every
    iteration that the summary records as a success or as a failure of the
    store step; failures of the create and fund steps cost no pause. *)
Theorem pauses_match_summary (w : World) (cli : Cli) (env : Env)
    (s : Summary) :
  In s (summaries (effects (program w cli env))) ->
  total_sleep (effects (program w cli env)) =
    (Z.of_nat (List.length (filter reached_payload (s_results s)))
     * (1000 + Z.max 1 (rate (argv cli env)) * 1000))%Z.
Proof.
  intros Hin.
  destruct (config_missing cli env) eqn:Hcfg.
  - destruct (program_unconfigured w cli env Hcfg) as [line E].
    rewrite E in Hin. destruct Hin.
  - destruct (run_invariant w cli env
                (fun _ results _ t =>
                   total_sleep t =
                     (Z.of_nat (List.length (filter reached_payload results))
                      * (1000 + RATE_SECONDS (config (argv cli env) env) * 1000))%Z)
                (fun _ _ => True) Hcfg)
      as [[t [results [saved [Ht [Hnone Hend]]]]]
         | [t [e [k [_ [_ [Hnone E]]]]]]].
    + reflexivity.
    + intros i results saved t out Ht Hpath.
      pose proof (sleep_step w _ i results saved t out Ht Hpath) as H.
      destruct out as [t' [[results' saved'] | e]]; exact H.
    + destruct Hend as [E | [e E]]; rewrite E in Hin |- *;
        simpl in Hin |- *; rewrite Hnone in Hin;
        destruct Hin as [<- | []]; exact Ht.
    + rewrite E in Hin. simpl in Hin. rewrite Hnone in Hin. destruct Hin.
Qed.

Lemma pauses_match_summary_witness :
  let out := program world_store_rejected (cli_num_rate 3 5) env_readme in
  let s := hd (summary (cfg_readme cli_none) "" []) (summaries (effects out)) in
  total_sleep (effects out) =
    (Z.of_nat (List.length (filter reached_payload (s_results s)))
     * (1000 + Z.max 1 (rate (argv (cli_num_rate 3 5) env_readme)) * 1000))%Z.
Proof.
  intros out s.
  apply (pauses_match_summary
           world_store_rejected (cli_num_rate 3 5) env_readme s).
  left. reflexivity.
Defined.

(** ** Order of the steps *)

Lemma settled_before_store_app (new t : Trace) :
  settled_before_store t -> Forall not_balance_query new ->
  settled_before_store (new ++ t)%list.
Proof.
  intros Ht H. induction H as [| ev new Hev _ IH]; [exact Ht | ].
  simpl. split; [ | exact IH]. destruct ev; try exact I. destruct Hev.
Qed.

Section Order.

Variable w : World.
Variable cfg : Config.

Lemma settled_step (i : nat) (results : list IterationResult)
    (saved : list SavedWallet) (t : Trace) (out : Trace * Completion Arrays) :
  settled_before_store t ->
  iteration_path w cfg i results saved t out ->
  settled_before_store (fst out).
Proof.
  intros Ht Hpath.
  assert (Hcreate : forall t1 c, createWallet w cfg i t = (t1, c) ->
            settled_before_store t1).
  { intros t1 c H.
    destruct (emits_run _ _ _ _ _ (createWallet_emits w cfg i) H) as [n1 [-> F1]].
    apply settled_before_store_app; [exact Ht | ].
    eapply Forall_impl; [ | exact F1]. intros ev [_ ->]. exact I. }
  assert (Hsaved : forall wallet t1,
            settled_before_store t1 ->
            settled_before_store (history_after_save cfg i wallet saved t1)).
  { intros wallet t1 H1. unfold history_after_save.
    destruct (SAVE_WALLETS cfg); [split; [exact I | exact H1] | exact H1]. }
  assert (Hfund : forall wallet t1 t3 c,
            settled_before_store t1 ->
            pRetry (fundWallet w cfg (address wallet)) 2 fundOnFailedAttempt
              (history_after_save cfg i wallet saved t1) = (t3, c) ->
            settled_before_store t3).
  { intros wallet t1 t3 c H1 H.
    destruct (emits_run _ _ _ _ _ (funding_emits w cfg (address wallet)) H)
      as [n3 [-> F3]].
    apply settled_before_store_app; [apply Hsaved; exact H1 | ].
    eapply Forall_impl; [ | exact F3].
    intros ev [[value [_ ->]] | [[hash ->] | [args ->]]]; exact I. }
  assert (Hstore : forall wallet t3 t4 fundRes c,
            settled_before_store t3 ->
            pRetry (fundWallet w cfg (address wallet)) 2 fundOnFailedAttempt
              (history_after_save cfg i wallet saved
                 (fst (createWallet w cfg i t))) = (t3, Normal fundRes) ->
            sendStoreMessageTx w cfg wallet (store_message cfg i)
              (EvSleep 1000 :: t3) = (t4, c) ->
            settled_before_store t4).
  { intros wallet t3 t4 fundRes c H3 Hf H.
    destruct (sendStoreMessageTx_history w cfg _ _ _ _ _ H) as [n4 [-> F4]].
    destruct (funding_success_confirmed w cfg _ _ _ _ Hf) as [hash [rest ->]].
    apply settled_before_store_app.
    - split; [eauto | ]. split; [exact I | exact H3].
    - eapply Forall_impl; [ | exact F4].
      intros ev [[data ->] | [[data [g ->]] | [[hash' ->] | [args ->]]]];
        exact I. }
  destruct Hpath as [t1 err Hc | t1 wallet err Hc Hs Hw
                    | t1 t3 wallet err Hc Hs Hf
                    | t1 t3 t4 wallet fundRes err Hc Hs Hf Hst
                    | t1 t3 t4 wallet fundRes sendRes Hc Hs Hf Hst];
    cbn [fst]; pose proof (Hcreate _ _ Hc) as H1.
  - split; [exact I | exact H1].
  - apply Hsaved. exact H1.
  - split; [exact I | ]. exact (Hfund _ _ _ _ H1 Hf).
  - split; [exact I | ]. split; [exact I | ].
    apply (Hstore wallet t3 t4 fundRes (Throw err));
      [exact (Hfund _ _ _ _ H1 Hf) | rewrite Hc; exact Hf | exact Hst].
  - split; [exact I | ].
    apply (Hstore wallet t3 t4 fundRes (Normal sendRes));
      [exact (Hfund _ _ _ _ H1 Hf) | rewrite Hc; exact Hf | exact Hst].
Qed.

End Order.

(** In every run, a payload step (it opens with the balance query of the
    wallet) comes only right after the settle delay of one second, which
    itself comes right after a transfer was confirmed: the script never
    attempts the contract call of a wallet whose funding did not succeed. *)
Theorem payload_only_after_confirmed_funding
    (w : World) (cli : Cli) (env : Env) :
  settled_before_store (effects (program w cli env)).
Proof.
  destruct (config_missing cli env) eqn:Hcfg.
  - destruct (program_unconfigured w cli env Hcfg) as [line ->].
    simpl. auto.
  - destruct (run_invariant w cli env
                (fun _ _ _ t => settled_before_store t)
                (fun _ t => settled_before_store t) Hcfg)
      as [[t [results [saved [Ht [_ Hend]]]]] | [t [e [k [_ [Ht [_ E]]]]]]].
    + exact I.
    + intros i results saved t out Ht Hpath.
      pose proof (settled_step w _ i results saved t out Ht Hpath) as H.
      destruct out as [t' [[results' saved'] | e]]; exact H.
    + destruct Hend as [E | [e E]]; rewrite E; simpl; auto.
    + rewrite E. simpl. auto.
Qed.

(** ** Deterministic mode *)

(** In deterministic mode ([--useHd]) the run never asks the library for a
    random wallet, whether the seed phrase is there or not and whatever the
    derivation does. *)
Theorem hd_mode_never_random (w : World) (cli : Cli) (env : Env) :
  useHd (argv cli env) = true ->
  count is_create_random (effects (program w cli env)) = 0.
Proof.
  intros Hhd. apply count_none.
  apply (run_forall w cli env (fun ev => is_create_random ev = false));
    try (intros; reflexivity).
  - intros H. change (useHd (argv cli env) = false) in H.
    rewrite Hhd in H. discriminate H.
  - intros addr ev [[value [_ ->]] | [[hash ->] | [args ->]]]; reflexivity.
  - intros wallet ev [[data ->] | [[data [g ->]] | [[hash ->] | [args ->]]]];
      reflexivity.
Qed.

Lemma hd_mode_never_random_witness :
  count is_create_random
    (effects (program world_ok (cli_hd 2) env_seeded)) = 0.
Proof.
  apply (hd_mode_never_random world_ok (cli_hd 2) env_seeded). reflexivity.
Defined.

(** With ethers 6, which has no [ethers.HDNode], the derivation throws at
    every index: a run in deterministic mode records a failure of the
    create step for each iteration, seed phrase or not. *)
Example hd_mode_with_ethers_6 :
  let out := farm_sequential world_ok (cli_hd 2) env_seeded in
  let results := List.concat (map s_results (summaries (effects out))) in
  exit_status out = 0%Z
  /\ map r_step results = [Some "create"; Some "create"]
  /\ map r_address results = [None; None]
  /\ count is_submission (effects out) = 0.
Proof. vm_compute. repeat split. Qed.

(** ** Single iterations *)

Section Single.

Variable w : World.
Variable cfg : Config.

(** The paths are the runs: what a path says is what the body computes. *)
Lemma iteration_follows_path (i : nat) (results : list IterationResult)
    (saved : list SavedWallet) (t : Trace) (out : Trace * Completion Arrays) :
  iteration_path w cfg i results saved t out ->
  iteration w cfg i (results, saved) t = out.
Proof.
  intros Hpath.
  destruct Hpath as [t1 err Hc | t1 wallet err Hc Hs Hw
                    | t1 t3 wallet err Hc Hs Hf
                    | t1 t3 t4 wallet fundRes err Hc Hs Hf Hst
                    | t1 t3 t4 wallet fundRes sendRes Hc Hs Hf Hst];
    unfold iteration, bind, try; rewrite Hc; try reflexivity;
    unfold ledger_saved, history_after_save, ledger_after, ledger_entry,
      store_message in *;
    destruct (SAVE_WALLETS cfg); try discriminate;
    unfold writeFileSync, call, bind, ret, sleep, console_error, call;
    try rewrite (Hs eq_refl); try rewrite Hw; try rewrite Hf;
    try rewrite Hst; reflexivity.
Qed.

Lemma loop_after_iteration (n i : nat) (results : list IterationResult)
    (saved : list SavedWallet) (t t' : Trace) (arrays' : Arrays) :
  iteration w cfg i (results, saved) t = (t', Normal arrays') ->
  loop w cfg (S n) i (results, saved) t = loop w cfg n (S i) arrays' t'.
Proof. intros H. rewrite loop_S. unfold bind. rewrite H. reflexivity. Qed.

End Single.

Section Outcomes.

Variable w : World.
Variable cfg : Config.

(** A payload step that succeeds ends on a contract call that the node
    accepted and confirmed; its hash is the one returned. *)
Lemma store_success_confirmed (wallet : Wallet) (msg : string) (t t' : Trace)
    (sendRes : SendResult) :
  sendStoreMessageTx w cfg wallet msg t = (t', Normal sendRes) ->
  exists t0 data gasLimit,
    t' = EvWait (txHash sendRes)
         :: EvSendTransaction (address wallet)
              (payload_request cfg data gasLimit)
         :: t0
    /\ w_sendTransaction w t0 (address wallet)
         (payload_request cfg data gasLimit) = Normal (txHash sendRes)
    /\ w_wait w (EvSendTransaction (address wallet)
                   (payload_request cfg data gasLimit) :: t0)
         (txHash sendRes) = Normal (receipt sendRes).
Proof.
  unfold sendStoreMessageTx, bind, call.
  destruct (w_getBalance w t (address wallet)) as [balance | e];
    [ | discriminate].
  intros H. apply pRetry_success in H. destruct H as [ta H].
  unfold storeAttempt, bind, try, lift, call, ret in H.
  destruct (w_encodeFunctionData w msg) as [data | e]; [ | discriminate].
  fold (estimate_request cfg wallet data) in H.
  assert (Hsend : forall gasLimit t0,
            match w_sendTransaction w t0 (address wallet)
                    (payload_request cfg data gasLimit) with
            | Normal tx =>
                match w_wait w (EvSendTransaction (address wallet)
                                  (payload_request cfg data gasLimit) :: t0) tx
                with
                | Normal rcpt =>
                    (EvWait tx
                     :: EvSendTransaction (address wallet)
                          (payload_request cfg data gasLimit) :: t0,
                     Normal {| txHash := tx; receipt := rcpt |})
                | Throw e =>
                    (EvWait tx
                     :: EvSendTransaction (address wallet)
                          (payload_request cfg data gasLimit) :: t0,
                     Throw e)
                end
            | Throw e =>
                (EvSendTransaction (address wallet)
                   (payload_request cfg data gasLimit) :: t0, Throw e)
            end = (t', Normal sendRes) ->
            exists t0 data gasLimit,
              t' = EvWait (txHash sendRes)
                   :: EvSendTransaction (address wallet)
                        (payload_request cfg data gasLimit)
                   :: t0
              /\ w_sendTransaction w t0 (address wallet)
                   (payload_request cfg data gasLimit) = Normal (txHash sendRes)
              /\ w_wait w (EvSendTransaction (address wallet)
                             (payload_request cfg data gasLimit) :: t0)
                   (txHash sendRes) = Normal (receipt sendRes)).
  { intros gasLimit t0 E.
    destruct (w_sendTransaction w t0 (address wallet)
                (payload_request cfg data gasLimit)) as [tx | e] eqn:Es;
      [ | discriminate].
    destruct (w_wait w _ tx) as [rcpt | e] eqn:Ew; [ | discriminate].
    injection E as <- <-. exists t0, data, gasLimit. simpl. auto. }
  destruct (w_estimateGas w ta (estimate_request cfg wallet data))
    as [g | e].
  - exact (Hsend g _ H).
  - destruct (w_BigInt w FALLBACK_GAS_LIMIT) as [g | e']; [ | discriminate].
    exact (Hsend g _ H).
Qed.

(** When the wallet cannot be created, the iteration records a failure of
    the create step and is over: nothing is written to the ledger, nothing
    is submitted, no pause is taken, and the next iteration starts. *)
Theorem create_failure_skips_iteration
    (i : nat) (results : list IterationResult) (saved : list SavedWallet)
    (t t1 : Trace) (err : JsError) :
  createWallet w cfg i t = (t1, Throw err) ->
  let t' :=
    EvConsoleError [LogStr "Failed to create wallet:"; message_or_self err]
    :: t1 in
  let arrays' := (push results (create_failure i err), saved) in
  iteration w cfg i (results, saved) t = (t', Normal arrays')
  /\ (exists new,
        t' = (new ++ t)%list
        /\ count is_submission new = 0
        /\ count is_sleep new = 0
        /\ count is_ledger_write new = 0)
  /\ forall n, loop w cfg (S n) i (results, saved) t
               = loop w cfg n (S i) arrays' t'.
Proof.
  intros Hc t' arrays'.
  assert (Hit : iteration w cfg i (results, saved) t = (t', Normal arrays'))
    by (apply iteration_follows_path, path_create_failed; exact Hc).
  split; [exact Hit | ]. split.
  - destruct (emits_run _ _ _ _ _ (createWallet_emits w cfg i) Hc)
      as [n1 [-> F1]].
    exists (EvConsoleError [LogStr "Failed to create wallet:";
                            message_or_self err] :: n1).
    split; [reflexivity | ]. rewrite !count_cons. simpl.
    repeat split; (eapply count_forall; [ | exact F1]);
      intros ev [_ ->]; reflexivity.
  - intros n. apply loop_after_iteration. exact Hit.
Qed.

(** A balance query that fails ends the payload step at once: the retries
    cover the submission only, so nothing is submitted and the observation
    hook is not called; the iteration records a failure of the store step
    with that error and still waits the rate delay. *)
Theorem balance_query_failure_not_retried
    (i : nat) (results : list IterationResult) (saved : list SavedWallet)
    (t t1 t3 : Trace) (wallet : Wallet) (fundRes : string) (err : JsError) :
  createWallet w cfg i t = (t1, Normal wallet) ->
  ledger_saved w cfg i wallet saved t1 ->
  pRetry (fundWallet w cfg (address wallet)) 2 fundOnFailedAttempt
    (history_after_save cfg i wallet saved t1) = (t3, Normal fundRes) ->
  w_getBalance w (EvSleep 1000 :: t3) (address wallet) = Throw err ->
  iteration w cfg i (results, saved) t =
    (EvSleep (RATE_SECONDS cfg * 1000)
     :: EvConsoleError
          [LogStr ("storeMessage failed for " ++ address wallet ++ ":");
           message_or_self err]
     :: EvGetBalance (address wallet)
     :: EvSleep 1000
     :: t3,
     Normal (push results (store_failure i wallet err),
             ledger_after cfg i wallet saved)).
Proof.
  intros Hc Hs Hf Hb.
  apply iteration_follows_path.
  eapply path_store_failed; try eassumption.
  unfold sendStoreMessageTx, bind, call. rewrite Hb. reflexivity.
Qed.

(** When every step succeeds, the iteration records a success whose
    transaction hash is the one the node returned for a contract call from
    the new wallet, a call that the node then confirmed; the iteration ends
    on the rate delay and the next one starts. *)
Theorem success_records_confirmed_hash
    (i : nat) (results : list IterationResult) (saved : list SavedWallet)
    (t t1 t3 t4 : Trace) (wallet : Wallet) (fundRes : string)
    (sendRes : SendResult) :
  createWallet w cfg i t = (t1, Normal wallet) ->
  ledger_saved w cfg i wallet saved t1 ->
  pRetry (fundWallet w cfg (address wallet)) 2 fundOnFailedAttempt
    (history_after_save cfg i wallet saved t1) = (t3, Normal fundRes) ->
  sendStoreMessageTx w cfg wallet (store_message cfg i) (EvSleep 1000 :: t3)
    = (t4, Normal sendRes) ->
  let t' := EvSleep (RATE_SECONDS cfg * 1000) :: t4 in
  let arrays' :=
    (push results (success i wallet sendRes),
     ledger_after cfg i wallet saved) in
  iteration w cfg i (results, saved) t = (t', Normal arrays')
  /\ confirmed_in w cfg (address wallet) (txHash sendRes) t'
  /\ forall n, loop w cfg (S n) i (results, saved) t
               = loop w cfg n (S i) arrays' t'.
Proof.
  intros Hc Hs Hf Hst t' arrays'.
  assert (Hit : iteration w cfg i (results, saved) t = (t', Normal arrays'))
    by (apply iteration_follows_path; eapply path_stored; eassumption).
  split; [exact Hit | ]. split.
  - destruct (store_success_confirmed _ _ _ _ _ Hst)
      as [t0 [data [g [-> [Hsend Hwait]]]]].
    exists [EvSleep (RATE_SECONDS cfg * 1000)], t0, data, g, (receipt sendRes).
    split; [reflexivity | ]. split; assumption.
  - intros n. apply loop_after_iteration. exact Hit.
Qed.

(** A transfer that the network accepted but whose confirmation failed is
    submitted again by the retry: the wallet is sent the funding amount
    twice when the second attempt goes through. *)
Theorem lost_confirmation_transfers_twice
    (addr : string) (value : Z) (t : Trace) (tx1 tx2 rcpt : string)
    (e : JsError) :
  w_parseEther w (FUND_AMOUNT cfg) = Normal value ->
  w_sendTransaction w t (FUNDER_address w cfg) (funding_request addr value)
    = Normal tx1 ->
  w_wait w (EvSendTransaction (FUNDER_address w cfg)
              (funding_request addr value) :: t) tx1 = Throw e ->
  w_sendTransaction w (unconfirmed_funding w cfg addr value tx1 e t)
    (FUNDER_address w cfg) (funding_request addr value) = Normal tx2 ->
  w_wait w (EvSendTransaction (FUNDER_address w cfg)
              (funding_request addr value)
            :: unconfirmed_funding w cfg addr value tx1 e t) tx2
    = Normal rcpt ->
  pRetry (fundWallet w cfg addr) 2 fundOnFailedAttempt t =
    (EvWait tx2
     :: EvSendTransaction (FUNDER_address w cfg) (funding_request addr value)
     :: unconfirmed_funding w cfg addr value tx1 e t,
     Normal rcpt)
  /\ count is_funding
       (EvWait tx2
        :: EvSendTransaction (FUNDER_address w cfg) (funding_request addr value)
        :: unconfirmed_funding w cfg addr value tx1 e []) = 2.
Proof.
  intros Hvalue Hs1 Hw1 Hs2 Hw2. split; [ | reflexivity].
  unfold pRetry, bind, try, fundWallet, bind, lift, call, throw, ret,
    fundOnFailedAttempt, console_warn, call.
  rewrite Hvalue. fold (funding_request addr value).
  rewrite Hs1, Hw1. unfold unconfirmed_funding, FUNDER_address in *.
  rewrite Hs2, Hw2. reflexivity.
Qed.

End Outcomes.

Lemma create_failure_skips_iteration_witness :
  let w0 := world_no_entropy in
  let cfg0 := cfg_readme (cli_num_only 1) in
  let err := Error "no entropy source" in
  let t' :=
    [EvConsoleError [LogStr "Failed to create wallet:"; message_or_self err];
     EvCreateRandom] in
  let arrays' := ([create_failure 0 err], []) in
  iteration w0 cfg0 0 ([], []) [] = (t', Normal arrays')
  /\ (exists new,
        t' = (new ++ [])%list
        /\ count is_submission new = 0
        /\ count is_sleep new = 0
        /\ count is_ledger_write new = 0)
  /\ forall n, loop w0 cfg0 (S n) 0 ([], []) [] = loop w0 cfg0 n 1 arrays' t'.
Proof.
  intros w0 cfg0 err t' arrays'.
  apply (create_failure_skips_iteration w0 cfg0 0 [] [] [] [EvCreateRandom] err).
  reflexivity.
Defined.

Lemma balance_query_failure_not_retried_witness :
  let w0 := world_balance_unavailable in
  let cfg0 := cfg_readme (cli_num_only 1) in
  let wallet := sample_wallet [] in
  let t3 :=
    fst (pRetry (fundWallet w0 cfg0 (address wallet)) 2 fundOnFailedAttempt
           (history_after_save cfg0 0 wallet [] [EvCreateRandom])) in
  iteration w0 cfg0 0 ([], []) [] =
    (EvSleep 2000
     :: EvConsoleError
          [LogStr "storeMessage failed for 0xwallet0:"; LogStr "rate limited"]
     :: EvGetBalance "0xwallet0"
     :: EvSleep 1000
     :: t3,
     Normal ([store_failure 0 wallet (Error "rate limited")],
             [ledger_entry 0 wallet])).
Proof.
  intros w0 cfg0 wallet t3.
  apply (balance_query_failure_not_retried w0 cfg0 0 [] [] []
           [EvCreateRandom] t3 wallet "receipt of 0xtx2"
           (Error "rate limited")).
  - reflexivity.
  - intros _. reflexivity.
  - reflexivity.
  - reflexivity.
Defined.

Lemma success_records_confirmed_hash_witness :
  let w0 := world_ok in
  let cfg0 := cfg_readme (cli_num_only 1) in
  let wallet := sample_wallet [] in
  let t3 :=
    fst (pRetry (fundWallet w0 cfg0 (address wallet)) 2 fundOnFailedAttempt
           (history_after_save cfg0 0 wallet [] [EvCreateRandom])) in
  let t4 :=
    fst (sendStoreMessageTx w0 cfg0 wallet (store_message cfg0 0)
           (EvSleep 1000 :: t3)) in
  let sendRes := {| txHash := "0xtx7"; receipt := "receipt of 0xtx7" |} in
  let t' := EvSleep 2000 :: t4 in
  let arrays' := ([success 0 wallet sendRes], [ledger_entry 0 wallet]) in
  iteration w0 cfg0 0 ([], []) [] = (t', Normal arrays')
  /\ confirmed_in w0 cfg0 (address wallet) "0xtx7" t'
  /\ forall n, loop w0 cfg0 (S n) 0 ([], []) [] = loop w0 cfg0 n 1 arrays' t'.
Proof.
  intros w0 cfg0 wallet t3 t4 sendRes t' arrays'.
  apply (success_records_confirmed_hash w0 cfg0 0 [] [] [] [EvCreateRandom]
           t3 t4 wallet "receipt of 0xtx2" sendRes).
  - reflexivity.
  - intros _. reflexivity.
  - reflexivity.
  - reflexivity.
Defined.

Lemma lost_confirmation_transfers_twice_witness :
  let w0 := world_confirmation_lost_once in
  let cfg0 := cfg_readme cli_none in
  let e := Error "timeout waiting for confirmation" in
  let send :=
    EvSendTransaction "0xfunder" (funding_request "0xwallet0" 2000000000000) in
  pRetry (fundWallet w0 cfg0 "0xwallet0") 2 fundOnFailedAttempt [] =
    (EvWait "0xtx3" :: send
     :: unconfirmed_funding w0 cfg0 "0xwallet0" 2000000000000 "0xtx0" e [],
     Normal "receipt of 0xtx3")
  /\ count is_funding
       (EvWait "0xtx3" :: send
        :: unconfirmed_funding w0 cfg0 "0xwallet0" 2000000000000 "0xtx0" e [])
     = 2.
Proof.
  intros w0 cfg0 e send.
  apply (lost_confirmation_transfers_twice w0 cfg0 "0xwallet0" 2000000000000
           [] "0xtx0" "0xtx3" "receipt of 0xtx3" e); reflexivity.
Defined.

(** ** The hashes of a summary *)

Lemma confirmed_in_app (w : World) (cfg : Config) (a h : string)
    (new t : Trace) :
  confirmed_in w cfg a h t -> confirmed_in w cfg a h (new ++ t)%list.
Proof.
  intros [rest [t0 [data [g [rcpt [-> [Hs Hw]]]]]]].
  exists (new ++ rest)%list, t0, data, g, rcpt.
  rewrite <- app_assoc. auto.
Qed.

Lemma hashes_step (w : World) (cfg : Config) (i : nat)
    (results : list IterationResult) (saved : list SavedWallet) (t : Trace)
    (out : Trace * Completion Arrays) :
  (forall r h, In r results -> r_txHash r = Some h ->
     exists a, r_address r = Some a /\ confirmed_in w cfg a h t) ->
  iteration_path w cfg i results saved t out ->
  match out with
  | (t', Normal (results', _)) =>
      forall r h, In r results' -> r_txHash r = Some h ->
        exists a, r_address r = Some a /\ confirmed_in w cfg a h t'
  | (_, Throw _) => True
  end.
Proof.
  intros Hinv Hpath.
  assert (Hext : exists new, fst out = (new ++ t)%list).
  { pose proof (iteration_follows_path w cfg i results saved t out Hpath) as Hit.
    destruct out as [t' c].
    destruct (emits_run _ _ _ _ _ (iteration_emits w cfg i (results, saved)) Hit)
      as [new [Hnew _]].
    exists new. exact Hnew. }
  destruct Hext as [new Hnew].
  assert (Hold : forall r h, In r results -> r_txHash r = Some h ->
            exists a, r_address r = Some a
                      /\ confirmed_in w cfg a h (new ++ t)%list).
  { intros r h Hr Hh. destruct (Hinv r h Hr Hh) as [a [Ha Hc]].
    exists a. split; [exact Ha | apply confirmed_in_app; exact Hc]. }
  destruct Hpath as [t1 err Hc | t1 wallet err Hc Hs Hw
                    | t1 t3 wallet err Hc Hs Hf
                    | t1 t3 t4 wallet fundRes err Hc Hs Hf Hst
                    | t1 t3 t4 wallet fundRes sendRes Hc Hs Hf Hst];
    try exact I; cbn [fst] in Hnew; rewrite Hnew;
    intros r h Hr Hh; apply in_app_or in Hr; destruct Hr as [Hr | [<- | []]];
    try (apply Hold; assumption); try discriminate Hh.
  injection Hh as <-. exists (address wallet). split; [reflexivity | ].
  rewrite <- Hnew.
  destruct (store_success_confirmed w cfg _ _ _ _ _ Hst)
    as [t0 [data [g [-> [Hsend Hwait]]]]].
  exists [EvSleep (RATE_SECONDS cfg * 1000)], t0, data, g, (receipt sendRes).
  split; [reflexivity | ]. split; assumption.
Qed.

(** Every transaction hash in a summary belongs to an entry with an
    address, and is the hash the node returned for a contract call that the
    run submitted from that address and that the node then confirmed. *)
Theorem recorded_hashes_confirmed (w : World) (cli : Cli) (env : Env)
    (s : Summary) (r : IterationResult) (h : string) :
  In s (summaries (effects (program w cli env))) ->
  In r (s_results s) ->
  r_txHash r = Some h ->
  exists a,
    r_address r = Some a
    /\ confirmed_in w (config (argv cli env) env) a h
         (effects (program w cli env)).
Proof.
  intros Hin Hr Hh.
  destruct (config_missing cli env) eqn:Hcfg.
  - destruct (program_unconfigured w cli env Hcfg) as [line E].
    rewrite E in Hin. destruct Hin.
  - destruct (run_invariant w cli env
                (fun _ results _ t =>
                   forall r h, In r results -> r_txHash r = Some h ->
                     exists a, r_address r = Some a
                               /\ confirmed_in w (config (argv cli env) env) a h t)
                (fun _ _ => True) Hcfg)
      as [[t [results [saved [Hinv [Hnone Hend]]]]]
         | [t [e [k [_ [_ [Hnone E]]]]]]].
    + intros r0 h0 [].
    + intros i results saved t out.
      apply (hashes_step w (config (argv cli env) env)).
    + destruct Hend as [E | [e E]]; rewrite E in Hin |- *;
        simpl in Hin; rewrite Hnone in Hin;
        destruct Hin as [<- | []]; simpl in Hr;
        destruct (Hinv r h Hr Hh) as [a [Ha Hc]]; exists a;
        (split; [exact Ha | ]); cbn [effects].
      * apply (confirmed_in_app w _ a h [_] t Hc).
      * apply (confirmed_in_app w _ a h [_; _] t Hc).
    + rewrite E in Hin. simpl in Hin. rewrite Hnone in Hin. destruct Hin.
Qed.

Lemma recorded_hashes_confirmed_witness :
  let out := program world_ok (cli_num_only 2) env_readme in
  exists a,
    Some "0xwallet10" = Some a
    /\ confirmed_in world_ok (cfg_readme (cli_num_only 2)) a "0xtx17"
         (effects out).
Proof.
  intros out.
  apply (recorded_hashes_confirmed world_ok (cli_num_only 2) env_readme
           (hd (summary (cfg_readme cli_none) "" []) (summaries (effects out)))
           {| r_index := 1; r_address := Some "0xwallet10";
              r_txHash := Some "0xtx17"; r_status := "ok";
              r_step := None; r_error := None |}
           "0xtx17").
  - left. reflexivity.
  - right. left. reflexivity.
  - reflexivity.
Defined.

(** ** The summary and the exit status *)

(** A summary is written at most once, as the last call of the run, and it
    records the settings in effect: the rate after the floor of one second
    has been applied (not the rate asked for), the funding amount, the RPC
    URL and the contract address the run used. *)
Theorem summary_records_effective_settings (w : World) (cli : Cli) (env : Env)
    (s : Summary) :
  In s (summaries (effects (program w cli env))) ->
  summaries (effects (program w cli env)) = [s]
  /\ s_rateSeconds s = Z.max 1 (rate (argv cli env))
  /\ s_fundAmount s = amount (argv cli env)
  /\ rpc (argv cli env) = Some (s_rpc s)
  /\ contract (argv cli env) = Some (s_contract s)
  /\ exists before,
       s_date s = w_now w before
       /\ (effects (program w cli env)
             = EvWriteFile "farm-results.json" (ResultsJson s) :: before
           \/ exists e,
                effects (program w cli env)
                  = EvConsoleError [LogStr "Fatal error:"; LogErr e]
                    :: EvWriteFile "farm-results.json" (ResultsJson s)
                    :: before).
Proof.
  intros Hin.
  destruct (config_missing cli env) eqn:Hcfg.
  - destruct (program_unconfigured w cli env Hcfg) as [line E].
    rewrite E in Hin. destruct Hin.
  - assert (Hrpc : rpc (argv cli env)
                   = Some (RPC_URL (config (argv cli env) env))
                   /\ contract (argv cli env)
                      = Some (CONTRACT_ADDRESS (config (argv cli env) env))).
    { unfold config_missing in Hcfg.
      apply orb_false_elim in Hcfg. destruct Hcfg as [Hcfg _].
      apply orb_false_elim in Hcfg. destruct Hcfg as [H1 H2].
      cbn [RPC_URL CONTRACT_ADDRESS config].
      destruct (rpc (argv cli env)); [ | discriminate H1].
      destruct (contract (argv cli env)); [ | discriminate H2].
      split; reflexivity. }
    destruct (program_cases w cli env Hcfg)
      as [[new [results [Hnew [_ [_ Hend]]]]]
         | [new [e [th [path [content [Hnew [_ E]]]]]]]].
    + assert (Hs : summaries (effects (program w cli env)) =
                   [summary (config (argv cli env) env) (w_now w new) results]).
      { destruct Hend as [[_ E] | [e [_ E]]]; rewrite E; simpl;
          rewrite (summaries_iterations new _ Hnew); reflexivity. }
      rewrite Hs in Hin. destruct Hin as [<- | []].
      split; [exact Hs | ]. split; [reflexivity | ]. split; [reflexivity | ].
      split; [exact (proj1 Hrpc) | ]. split; [exact (proj2 Hrpc) | ].
      exists new. split; [reflexivity | ].
      destruct Hend as [[_ E] | [e [_ E]]]; rewrite E;
        [left; reflexivity | right; exists e; reflexivity].
    + rewrite E in Hin. simpl in Hin.
      rewrite (summaries_iterations new _ Hnew) in Hin. destruct Hin.
Qed.

Lemma summary_records_effective_settings_witness :
  let out := program world_ok (cli_num_rate 1 0) env_readme in
  let s := hd (summary (cfg_readme cli_none) "" []) (summaries (effects out)) in
  s_rateSeconds s = Z.max 1 (rate (argv (cli_num_rate 1 0) env_readme))
  /\ s_rateSeconds s = 1%Z.
Proof.
  intros out s.
  destruct (summary_records_effective_settings
              world_ok (cli_num_rate 1 0) env_readme s
              (or_introl eq_refl)) as [_ [Hrate _]].
  split; [exact Hrate | reflexivity].
Defined.

(** An exit status of 0 means that the summary was written, and accepted by
    the file system, as the last call of the run, with one entry for each
    of the N iterations. *)
Theorem exit_zero_means_summary_written (w : World) (cli : Cli) (env : Env) :
  exit_status (program w cli env) = 0%Z ->
  exists s before,
    effects (program w cli env)
      = EvWriteFile "farm-results.json" (ResultsJson s) :: before
    /\ w_writeFileSync w before "farm-results.json" (ResultsJson s) = Normal tt
    /\ List.length (s_results s) = Z.to_nat (num (argv cli env)).
Proof.
  intros Hexit.
  destruct (config_missing cli env) eqn:Hcfg.
  - destruct (program_unconfigured w cli env Hcfg) as [line E].
    rewrite E in Hexit. discriminate Hexit.
  - destruct (program_cases w cli env Hcfg)
      as [[new [results [_ [Hidx [_ [[Hw E] | [e [_ E]]]]]]]]
         | [new [e [th [path [content [_ [_ E]]]]]]]];
      rewrite E in Hexit |- *; try discriminate Hexit.
    eexists. exists new. split; [reflexivity | ]. split; [exact Hw | ].
    simpl. rewrite <- (length_map r_index), Hidx, length_seq. reflexivity.
Qed.

Lemma exit_zero_means_summary_written_witness :
  exists s before,
    effects (program world_funding_rejected (cli_num_only 2) env_readme)
      = EvWriteFile "farm-results.json" (ResultsJson s) :: before
    /\ w_writeFileSync world_funding_rejected before "farm-results.json"
         (ResultsJson s) = Normal tt
    /\ List.length (s_results s) = Z.to_nat (num (argv (cli_num_only 2) env_readme)).
Proof.
  apply (exit_zero_means_summary_written
           world_funding_rejected (cli_num_only 2) env_readme).
  reflexivity.
Defined.

(** A count that is zero or negative runs no iteration: the only call of
    the run is the write of a summary without results. *)
Theorem nonpositive_count_runs_nothing (w : World) (cli : Cli) (env : Env) :
  config_missing cli env = false ->
  (num (argv cli env) <= 0)%Z ->
  exists s,
    s_results s = []
    /\ (effects (program w cli env)
          = [EvWriteFile "farm-results.json" (ResultsJson s)]
        \/ exists e,
             effects (program w cli env)
               = [EvConsoleError [LogStr "Fatal error:"; LogErr e];
                  EvWriteFile "farm-results.json" (ResultsJson s)]).
Proof.
  intros Hcfg Hnum.
  rewrite (program_configured w cli env Hcfg). rewrite main_by_loop.
  change (NUM (config (argv cli env) env)) with (num (argv cli env)).
  replace (Z.to_nat (num (argv cli env))) with 0 by lia.
  cbn [loop ret].
  exists (summary (config (argv cli env) env) (w_now w []) []).
  split; [reflexivity | ].
  destruct (w_writeFileSync w [] "farm-results.json" _) as [[] | e];
    [left; reflexivity | right; exists e; reflexivity].
Qed.

Lemma nonpositive_count_runs_nothing_witness :
  exists s,
    s_results s = []
    /\ (effects (program world_ok (cli_num_only (-3)) env_readme)
          = [EvWriteFile "farm-results.json" (ResultsJson s)]
        \/ exists e,
             effects (program world_ok (cli_num_only (-3)) env_readme)
               = [EvConsoleError [LogStr "Fatal error:"; LogErr e];
                  EvWriteFile "farm-results.json" (ResultsJson s)]).
Proof.
  apply (nonpositive_count_runs_nothing world_ok (cli_num_only (-3)) env_readme).
  - reflexivity.
  - discriminate.
Defined.
